(** * qwen3-tts-ui: the capture recorder, the sample library and the
    generation worker of [main.py], embedded in Rocq.

    Python values are modelled as the program has them: [str] as the list of
    its code points, the [samples] directory as a finite map from file names
    to file contents, float32 samples as IEEE-754 binary32 numbers
    ([spec_float] at precision 24), the widgets of [App] as the fields of a
    record, and the worker thread of [_generate] as the trace of the calls
    and signal emissions it performs. *)

From Stdlib Require Import ZArith NArith List Bool Lia String Ascii.
From Stdlib Require Import SpecFloat.
From stdpp Require Import base decidable option list sorting countable gmap.

Local Open Scope Z_scope.

(** ** Python strings *)

(** A [str] is its sequence of code points. *)
Abbreviation pystr := (list N).

(** A literal: the code points of an ASCII string. *)
Definition py (s : string) : pystr :=
  List.map N_of_ascii (list_ascii_of_string s).
Arguments py : simpl never.

(** [str.isspace] for one character, as CPython's [_PyUnicode_IsWhitespace]. *)
Definition is_space (c : N) : bool :=
  ((9 <=? c) && (c <=? 13) || (28 <=? c) && (c <=? 32) ||
   (c =? 133) || (c =? 160) || (c =? 5760) ||
   (8192 <=? c) && (c <=? 8202) || (c =? 8232) || (c =? 8233) ||
   (c =? 8239) || (c =? 8287) || (c =? 12288))%N.

Fixpoint lstrip (s : pystr) : pystr :=
  match s with
  | c :: s' => if is_space c then lstrip s' else s
  | [] => []
  end.

Definition rstrip (s : pystr) : pystr := rev (lstrip (rev s)).

(** [s.strip()] *)
Definition strip (s : pystr) : pystr := rstrip (lstrip s).

(** [s.endswith(suffix)] *)
Definition endswith (s suffix : pystr) : bool :=
  bool_decide (drop (length s - length suffix)%nat s = suffix).

(** Comparison of two [str], as [sorted] uses it: code point by code point,
    a proper prefix first. *)
Fixpoint str_leb (a b : pystr) : bool :=
  match a, b with
  | [], _ => true
  | _ :: _, [] => false
  | x :: a', y :: b' => (x <? y)%N || ((x =? y)%N && str_leb a' b')
  end.

Definition str_le (a b : pystr) : Prop := str_leb a b = true.

#[global] Instance str_le_dec a b : Decision (str_le a b).
Proof. unfold str_le. apply _. Defined.

(** ** Paths: [Path(name).with_suffix(".txt")] *)

(** [s.rfind(".")]: the index of the last dot, [None] for Python's -1. *)
Fixpoint rfind_dot_from (i : nat) (s : pystr) : option nat :=
  match s with
  | [] => None
  | c :: s' =>
      match rfind_dot_from (S i) s' with
      | Some j => Some j
      | None => if (c =? 46)%N then Some i else None
      end
  end.

Definition rfind_dot (s : pystr) : option nat := rfind_dot_from 0 s.

(** [PurePath.suffix] of a one-component path:
    [i = name.rfind("."); name[i:] if 0 < i < len(name) - 1 else ""]. *)
Definition path_suffix (name : pystr) : pystr :=
  match rfind_dot name with
  | Some i =>
      if bool_decide (0 < i)%nat && bool_decide (i < length name - 1)%nat
      then drop i name else []
  | None => []
  end.

(** The file name of [Path(s)] for a one-component [s]: the strings [""]
    and ["."] both denote the current directory, whose name is empty. *)
Definition path_name (s : pystr) : pystr :=
  if bool_decide (s = py ".") then [] else s.

(** [Path(s).with_suffix(suffix)] for a suffix that starts with a dot:
    [None] is the [ValueError] raised for an empty name. *)
Definition with_suffix (s suffix : pystr) : option pystr :=
  let name := path_name s in
  match name with
  | [] => None
  | _ =>
      let old_suffix := path_suffix name in
      match old_suffix with
      | [] => Some (name ++ suffix)
      | _ => Some (take (length name - length old_suffix)%nat name ++ suffix)
      end
  end.

(** ** The [samples] directory *)

(** The content of a file of the directory: a wave file as [wave.open(.., "w")]
    leaves it, with its header fields and its frame bytes, or a text file as
    [write_text] leaves it. *)
Inductive file : Type :=
  | WaveFile (nchannels sampwidth framerate : Z) (frames : list Z)
  | TextFile (data : pystr).

(** [SAMPLES_DIR]: [None] while the directory does not exist, else its
    entries by name. *)
Abbreviation samples_dir := (option (gmap pystr file)).

(** [SAMPLES_DIR.exists()] *)
Definition dir_exists (fs : samples_dir) : bool := bool_decide (is_Some fs).

(** [(SAMPLES_DIR / name).exists()]; joining the empty string gives the
    directory itself. *)
Definition path_exists (fs : samples_dir) (name : pystr) : bool :=
  match fs with
  | None => false
  | Some d => if bool_decide (name = []) then true else bool_decide (is_Some (d !! name))
  end.

(** The entry [SAMPLES_DIR / name], when there is one. *)
Definition lookup_file (fs : samples_dir) (name : pystr) : option file :=
  match fs with
  | None => None
  | Some d => d !! name
  end.

(** [SAMPLES_DIR.mkdir(exist_ok=True)] *)
Definition mkdir (fs : samples_dir) : samples_dir :=
  match fs with
  | None => Some ∅
  | Some d => Some d
  end.

(** Writing a file into the directory, which exists at every call site. *)
Definition write_file (fs : samples_dir) (name : pystr) (f : file) : samples_dir :=
  match fs with
  | None => None
  | Some d => Some (<[name := f]> d)
  end.

(** Text mode on read ([newline=None]): ["\r\n"] and a lone ["\r"] both
    become ["\n"]. On write the platform's line separator is ["\n"], so
    [write_text] stores its argument as it is. *)
Fixpoint universal_newlines (s : pystr) : pystr :=
  match s with
  | [] => []
  | c :: s' =>
      if (c =? 13)%N then
        match s' with
        | c' :: s'' => if (c' =? 10)%N then 10%N :: universal_newlines s''
                       else 10%N :: universal_newlines s'
        | [] => [10%N]
        end
      else c :: universal_newlines s'
  end.

(** [path.read_text()] of an existing entry: [None] when the bytes of a wave
    file are decoded as text and the decoder raises. *)
Definition read_text (f : file) : option pystr :=
  match f with
  | TextFile data => Some (universal_newlines data)
  | WaveFile _ _ _ _ => None
  end.

(** [SAMPLES_DIR.glob("*.wav")]: the entries whose name ends in [".wav"], in
    the order the directory scan happens to give them. *)
Definition glob_wav (d : gmap pystr file) : list pystr :=
  filter (λ n, endswith n (py ".wav") = true) (fst <$> map_to_list d).

(** [list_samples] *)
Definition list_samples (fs : samples_dir) : list pystr :=
  match fs with
  | None => []
  | Some d => merge_sort str_le (glob_wav d)
  end.

(** ** Collaborators: the model, the sound device, the clock *)

(** The three synthesis modes, the keys of [MODELS]. *)
Inductive Mode : Type := CustomVoice | VoiceDesign | VoiceClone.

#[global] Instance Mode_eq_dec : EqDecision Mode.
Proof. solve_decision. Defined.

#[global] Instance Mode_countable : Countable Mode.
Proof.
  refine (inj_countable'
    (λ m, match m with CustomVoice => 0%nat | VoiceDesign => 1%nat | VoiceClone => 2%nat end)
    (λ n, match n with 0%nat => CustomVoice | 1%nat => VoiceDesign | _ => VoiceClone end) _).
  by intros [].
Defined.

Definition mode_name (m : Mode) : pystr :=
  match m with
  | CustomVoice => py "CustomVoice"
  | VoiceDesign => py "VoiceDesign"
  | VoiceClone => py "VoiceClone"
  end.

(** [MODELS] *)
Definition MODELS (m : Mode) : pystr :=
  match m with
  | CustomVoice => py "mlx-community/Qwen3-TTS-12Hz-1.7B-CustomVoice-8bit"
  | VoiceDesign => py "mlx-community/Qwen3-TTS-12Hz-1.7B-VoiceDesign-8bit"
  | VoiceClone => py "mlx-community/Qwen3-TTS-12Hz-1.7B-Base-8bit"
  end.

(** [SAMPLE_RATE] *)
Definition SAMPLE_RATE : Z := 24000.

(** A raised exception: its class, its [str(e)], and whether the class derives
    from [Exception]; [SystemExit], [KeyboardInterrupt] and [GeneratorExit] do
    not. *)
Record Exn : Type := mkExn { exn_class : pystr; exn_str : pystr; is_Exception : bool }.

(** A float32 value. *)
Abbreviation float32 := spec_float.

(** One result of a synthesis call: [result.audio] and [result.sample_rate]. *)
Record Segment : Type := mkSegment { audio : list float32; sample_rate : Z }.

(** What iterating over the value of a synthesis call gives: the results
    yielded, then either exhaustion or a raised exception (a call that raises
    at once yields nothing). *)
Record Results : Type := mkResults { yielded : list Segment; raised : option Exn }.

(** A loaded model: its three synthesis entry points and its speakers. *)
Record Model : Type := mkModel {
  generate_custom_voice :
    pystr (* text *) → pystr (* speaker *) → pystr (* language *) →
    option pystr (* instruct *) → Results;
  generate_voice_design :
    pystr (* text *) → pystr (* language *) → pystr (* instruct *) → Results;
  generate :
    pystr (* text *) → option pystr (* ref_audio *) → option pystr (* ref_text *) →
    Results;
  get_supported_speakers : list pystr
}.

(** [sounddevice]: whether [sd.play] and [sd.wait] raise. *)
Record SoundDevice : Type := mkSoundDevice {
  play_raises : list float32 → Z → Z → option Exn;
  wait_raises : option Exn
}.

(** [datetime.now()]: the local wall-clock fields, and [fold], which is set
    on the second pass through an hour that the local clock repeats. *)
Record datetime : Type := mkDatetime {
  year : Z; month : Z; day : Z; hour : Z; minute : Z; second : Z; fold : bool
}.

(** The arguments [_on_say] hands to the worker thread. *)
Record GenerateArgs : Type := mkGenerateArgs {
  ga_mode : Mode; ga_text : pystr; ga_voice : pystr; ga_instruct : option pystr;
  ga_ref_audio : option pystr; ga_ref_text : option pystr; ga_device_idx : Z
}.

Inductive Thread : Type :=
  | GenerateThread (args : GenerateArgs)
  | LoadModelThread (mode : Mode).

(** What a handler or a worker does to the outside: calls of the
    collaborators, threads started, signals emitted. *)
Inductive Event : Type :=
  | CallLoadModel (identifier : pystr)
  | CallGenerateCustomVoice (text speaker language : pystr) (instruct : option pystr)
  | CallGenerateVoiceDesign (text language instruct : pystr)
  | CallGenerate (text : pystr) (ref_audio ref_text : option pystr)
  | CallPlay (data : list float32) (samplerate device : Z)
  | CallWait
  | StartThread (t : Thread)
  | EmitModelReady (mode : Mode) (voices : list pystr)
  | EmitStatus (text : pystr)
  | EmitDone
  | EmitRecordingSaved.

(** ** Widgets *)

(** A [QComboBox]: its items and [currentIndex()], -1 when nothing is
    current. *)
Record ComboBox : Type := mkComboBox { items : list pystr; currentIndex : Z }.

Definition count (cb : ComboBox) : Z := Z.of_nat (length (items cb)).

Definition currentText (cb : ComboBox) : pystr :=
  if (0 <=? currentIndex cb) && (currentIndex cb <? count cb)
  then nth (Z.to_nat (currentIndex cb)) (items cb) []
  else [].

Definition clear (cb : ComboBox) : ComboBox := mkComboBox [] (-1).

(** [addItem]: the first item of an empty box becomes the current one. *)
Definition addItem (s : pystr) (cb : ComboBox) : ComboBox :=
  mkComboBox (items cb ++ [s])
             (match items cb with [] => 0 | _ => currentIndex cb end).

Definition setCurrentIndex (i : Z) (cb : ComboBox) : ComboBox :=
  mkComboBox (items cb)
             (if (0 <=? i) && (i <? count cb) then i else -1).

(** [l[i]] on a Python list: a negative index counts from the end, and
    [None] is the [IndexError]. *)
Definition py_index {A} (l : list A) (i : Z) : option A :=
  let n := Z.of_nat (length l) in
  if (0 <=? i) && (i <? n) then l !! Z.to_nat i
  else if (- n <=? i) && (i <? 0) then l !! Z.to_nat (n + i)
  else None.

(** ** The application object *)

Record App : Type := mkApp {
  devices : list (Z * pystr);
  device_combo : ComboBox;
  voice_combo : ComboBox;
  voice_combo_enabled : bool;
  sample_combo : ComboBox;
  ref_text_edit : pystr;
  instruct_edit : pystr;
  text_edit : pystr;
  status_label : pystr;
  say_btn_enabled : bool;
  record_btn_text : pystr;
  record_btn_checked : bool;
  recording : bool;
  recorded_frames : list (list float32);
  input_stream : option bool;   (* unset, or a stream that is active or not *)
  models : gmap Mode Model;
  current_mode : Mode
}.

Definition set_voice_combo v (a : App) : App :=
  mkApp (devices a) (device_combo a) v (voice_combo_enabled a) (sample_combo a)
    (ref_text_edit a) (instruct_edit a) (text_edit a) (status_label a)
    (say_btn_enabled a) (record_btn_text a) (record_btn_checked a) (recording a)
    (recorded_frames a) (input_stream a) (models a) (current_mode a).
Definition set_voice_combo_enabled v (a : App) : App :=
  mkApp (devices a) (device_combo a) (voice_combo a) v (sample_combo a)
    (ref_text_edit a) (instruct_edit a) (text_edit a) (status_label a)
    (say_btn_enabled a) (record_btn_text a) (record_btn_checked a) (recording a)
    (recorded_frames a) (input_stream a) (models a) (current_mode a).
Definition set_sample_combo v (a : App) : App :=
  mkApp (devices a) (device_combo a) (voice_combo a) (voice_combo_enabled a) v
    (ref_text_edit a) (instruct_edit a) (text_edit a) (status_label a)
    (say_btn_enabled a) (record_btn_text a) (record_btn_checked a) (recording a)
    (recorded_frames a) (input_stream a) (models a) (current_mode a).
Definition set_ref_text_edit v (a : App) : App :=
  mkApp (devices a) (device_combo a) (voice_combo a) (voice_combo_enabled a)
    (sample_combo a) v (instruct_edit a) (text_edit a) (status_label a)
    (say_btn_enabled a) (record_btn_text a) (record_btn_checked a) (recording a)
    (recorded_frames a) (input_stream a) (models a) (current_mode a).
Definition set_status_label v (a : App) : App :=
  mkApp (devices a) (device_combo a) (voice_combo a) (voice_combo_enabled a)
    (sample_combo a) (ref_text_edit a) (instruct_edit a) (text_edit a) v
    (say_btn_enabled a) (record_btn_text a) (record_btn_checked a) (recording a)
    (recorded_frames a) (input_stream a) (models a) (current_mode a).
Definition set_say_btn_enabled v (a : App) : App :=
  mkApp (devices a) (device_combo a) (voice_combo a) (voice_combo_enabled a)
    (sample_combo a) (ref_text_edit a) (instruct_edit a) (text_edit a)
    (status_label a) v (record_btn_text a) (record_btn_checked a) (recording a)
    (recorded_frames a) (input_stream a) (models a) (current_mode a).
Definition set_record_btn_text v (a : App) : App :=
  mkApp (devices a) (device_combo a) (voice_combo a) (voice_combo_enabled a)
    (sample_combo a) (ref_text_edit a) (instruct_edit a) (text_edit a)
    (status_label a) (say_btn_enabled a) v (record_btn_checked a) (recording a)
    (recorded_frames a) (input_stream a) (models a) (current_mode a).
Definition set_record_btn_checked v (a : App) : App :=
  mkApp (devices a) (device_combo a) (voice_combo a) (voice_combo_enabled a)
    (sample_combo a) (ref_text_edit a) (instruct_edit a) (text_edit a)
    (status_label a) (say_btn_enabled a) (record_btn_text a) v (recording a)
    (recorded_frames a) (input_stream a) (models a) (current_mode a).
Definition set_recording v (a : App) : App :=
  mkApp (devices a) (device_combo a) (voice_combo a) (voice_combo_enabled a)
    (sample_combo a) (ref_text_edit a) (instruct_edit a) (text_edit a)
    (status_label a) (say_btn_enabled a) (record_btn_text a) (record_btn_checked a) v
    (recorded_frames a) (input_stream a) (models a) (current_mode a).
Definition set_recorded_frames v (a : App) : App :=
  mkApp (devices a) (device_combo a) (voice_combo a) (voice_combo_enabled a)
    (sample_combo a) (ref_text_edit a) (instruct_edit a) (text_edit a)
    (status_label a) (say_btn_enabled a) (record_btn_text a) (record_btn_checked a)
    (recording a) v (input_stream a) (models a) (current_mode a).
Definition set_input_stream v (a : App) : App :=
  mkApp (devices a) (device_combo a) (voice_combo a) (voice_combo_enabled a)
    (sample_combo a) (ref_text_edit a) (instruct_edit a) (text_edit a)
    (status_label a) (say_btn_enabled a) (record_btn_text a) (record_btn_checked a)
    (recording a) (recorded_frames a) v (models a) (current_mode a).
Definition set_models v (a : App) : App :=
  mkApp (devices a) (device_combo a) (voice_combo a) (voice_combo_enabled a)
    (sample_combo a) (ref_text_edit a) (instruct_edit a) (text_edit a)
    (status_label a) (say_btn_enabled a) (record_btn_text a) (record_btn_checked a)
    (recording a) (recorded_frames a) (input_stream a) v (current_mode a).
Definition set_current_mode v (a : App) : App :=
  mkApp (devices a) (device_combo a) (voice_combo a) (voice_combo_enabled a)
    (sample_combo a) (ref_text_edit a) (instruct_edit a) (text_edit a)
    (status_label a) (say_btn_enabled a) (record_btn_text a) (record_btn_checked a)
    (recording a) (recorded_frames a) (input_stream a) (models a) v.

(** ** Running the program: state, trace and exceptions *)

(** What the code can touch: the application object and the directory. *)
Record World : Type := mkWorld { app : App; fs : samples_dir }.

(** How a piece of code ends: it returns a value or raises. *)
Inductive outcome (A : Type) : Type :=
  | Ret (a : A)
  | Exc (e : Exn).
Arguments Ret {A} a.
Arguments Exc {A} e.

(** A piece of code: from the world before it, the world after it, the
    events it performed in order, and how it ended. *)
Definition M (A : Type) : Type := World → World * list Event * outcome A.

Definition ret {A} (a : A) : M A := λ w, (w, [], Ret a).

Definition bind {A B} (c : M A) (k : A → M B) : M B :=
  λ w, match c w with
       | (w1, t1, Ret a) => let '(w2, t2, o) := k a w1 in (w2, t1 ++ t2, o)
       | (w1, t1, Exc e) => (w1, t1, Exc e)
       end.

Notation "'let!' x ':=' c 'in' k" := (bind c (λ x, k))
  (at level 10, x name, c at level 100, k at level 200).
Notation "c ;; k" := (bind c (λ _, k))
  (at level 100, right associativity).

Definition raise {A} (e : Exn) : M A := λ w, (w, [], Exc e).
Definition emit (ev : Event) : M unit := λ w, (w, [ev], Ret tt).
Definition self : M App := λ w, (w, [], Ret (app w)).
Definition update (f : App → App) : M unit :=
  λ w, (mkWorld (f (app w)) (fs w), [], Ret tt).
Definition get_fs : M samples_dir := λ w, (w, [], Ret (fs w)).
Definition put_fs (d : samples_dir) : M unit :=
  λ w, (mkWorld (app w) d, [], Ret tt).

(** [try: body except Exception as e: handler(e)]: an exception whose class
    does not derive from [Exception] passes through. *)
Definition try_except {A} (body : M A) (handler : Exn → M A) : M A :=
  λ w, match body w with
       | (w1, t1, Ret a) => (w1, t1, Ret a)
       | (w1, t1, Exc e) =>
           if is_Exception e
           then let '(w2, t2, o) := handler e w1 in (w2, t1 ++ t2, o)
           else (w1, t1, Exc e)
       end.

(** A call of a collaborator that may raise. *)
Definition call (ev : Event) (r : option Exn) : M unit :=
  emit ev ;; match r with Some e => raise e | None => ret tt end.

Definition trace {A} (r : World * list Event * outcome A) : list Event := snd (fst r).
Definition world_after {A} (r : World * list Event * outcome A) : World := fst (fst r).
Definition how_ended {A} (r : World * list Event * outcome A) : outcome A := snd r.

(** ** The capture recorder *)

(** float32 arithmetic: binary32 has 24 bits of precision and its
    infinities have exponent 128. *)
Definition f32_mul : float32 → float32 → float32 := SFmul 24 128.
Definition f32_of_int (n : Z) : float32 := binary_normalize 24 128 n 0 false.

(** The integer part of a finite float32, towards zero; [None] for an
    infinity or a NaN. *)
Definition trunc_toward_zero (x : float32) : option Z :=
  match x with
  | S754_zero _ => Some 0
  | S754_finite s m e => Some (cond_Zopp s (Z.shiftl (Z.pos m) e))
  | S754_infinity _ | S754_nan => None
  end.

Definition in_int16 (z : Z) : bool := (-32768 <=? z) && (z <=? 32767).

(** An integer stored in 16 bits, two's complement. *)
Definition wrap_int16 (z : Z) : Z := (z + 32768) mod 65536 - 32768.

(** [x.astype(np.int16)] for one float32: the C conversion, which drops the
    fraction. Where the integer part does not fit the result is whatever
    [platform_cast] gives on the machine at hand, stored in 16 bits. *)
Definition astype_int16 (platform_cast : float32 → Z) (x : float32) : Z :=
  match trunc_toward_zero x with
  | Some z => if in_int16 z then z else wrap_int16 (platform_cast x)
  | None => wrap_int16 (platform_cast x)
  end.

(** [(audio * 32767).astype(np.int16)] for one sample. *)
Definition to_int16 (platform_cast : float32 → Z) (x : float32) : Z :=
  astype_int16 platform_cast (f32_mul x (f32_of_int 32767)).

(** [audio_int16.tobytes()]: two bytes per sample, low byte first. *)
Definition tobytes (l : list Z) : list Z :=
  concat (List.map (λ z, [z mod 256; (z / 256) mod 256]) l).

(** [wave.Wave_read.getnframes]: the frames a reader finds in the file. *)
Definition getnframes (f : file) : Z :=
  match f with
  | WaveFile nchannels sampwidth _ frames =>
      Z.of_nat (length frames) / (sampwidth * nchannels)
  | TextFile _ => 0
  end.

(** [strftime]: a decimal digit, and a number zero-padded to 2 or 4 digits. *)
Definition digit (d : Z) : N := Z.to_N (48 + d mod 10).
Definition pad2 (n : Z) : pystr := [digit (n / 10); digit n].
Definition pad4 (n : Z) : pystr :=
  [digit (n / 1000); digit (n / 100); digit (n / 10); digit n].

(** [t.strftime("%Y%m%d_%H%M%S")] *)
Definition strftime_Ymd_HMS (t : datetime) : pystr :=
  pad4 (year t) ++ pad2 (month t) ++ pad2 (day t) ++ py "_" ++
  pad2 (hour t) ++ pad2 (minute t) ++ pad2 (second t).

Definition AttributeError_input_stream : Exn :=
  mkExn (py "AttributeError") (py "'App' object has no attribute 'input_stream'") true.
Definition ValueError_empty_name : Exn :=
  mkExn (py "ValueError") (py "PosixPath('.') has an empty name") true.
Definition UnicodeDecodeError : Exn :=
  mkExn (py "UnicodeDecodeError") (py "invalid start byte") true.
Definition IndexError : Exn :=
  mkExn (py "IndexError") (py "list index out of range") true.
Definition ValueError_concatenate : Exn :=
  mkExn (py "ValueError") (py "need at least one array to concatenate") true.
Definition KeyError (m : Mode) : Exn :=
  mkExn (py "KeyError") (py "'" ++ mode_name m ++ py "'") true.

(** [_start_recording]. [open_raises] is what [sd.InputStream(...)] raises, if
    anything, and [start_raises] what the new stream's [start()] raises; the
    attribute [input_stream] is assigned between the two. *)
Definition _start_recording (open_raises start_raises : option Exn) : M unit :=
  update (set_recording true) ;;
  update (set_recorded_frames []) ;;
  update (set_record_btn_text (py "Stop")) ;;
  update (set_status_label (py "Recording...")) ;;
  match open_raises with
  | Some e => raise e
  | None =>
      update (set_input_stream (Some false)) ;;
      match start_raises with
      | Some e => raise e
      | None => update (set_input_stream (Some true))
      end
  end.

(** The stream's [callback]: one more chunk, copied, at the end of the list. *)
Definition callback (indata : list float32) : M unit :=
  update (λ a, set_recorded_frames (recorded_frames a ++ [indata]) a).

(** [_stop_recording], at the time [now] of its call to [datetime.now()].
    The stream's [stop()] and [close()] are called with their default
    [ignore_errors=True], so the device cannot make them raise. *)
Definition _stop_recording (platform_cast : float32 → Z) (now : datetime) : M unit :=
  update (set_recording false) ;;
  update (set_record_btn_text (py "Record")) ;;
  update (set_record_btn_checked false) ;;
  let! a := self in
  match input_stream a with
  | None => raise AttributeError_input_stream
  | Some _ =>
      update (set_input_stream (Some false)) ;;
      match recorded_frames a with
      | [] => update (set_status_label (py "Ready"))
      | _ =>
          let data := concat (recorded_frames a) in
          let! d := get_fs in
          put_fs (mkdir d) ;;
          let filename := strftime_Ymd_HMS now ++ py ".wav" in
          let audio_int16 := List.map (to_int16 platform_cast) data in
          let! d := get_fs in
          put_fs (write_file d filename (WaveFile 1 2 SAMPLE_RATE (tobytes audio_int16))) ;;
          let ref_text := strip (ref_text_edit a) in
          match ref_text with
          | [] => ret tt
          | _ =>
              match with_suffix filename (py ".txt") with
              | None => raise ValueError_empty_name
              | Some txt => let! d := get_fs in put_fs (write_file d txt (TextFile ref_text))
              end
          end ;;
          update (set_status_label (py "Saved " ++ filename)) ;;
          emit EmitRecordingSaved
      end
  end.

(** [_on_record_toggle] *)
Definition _on_record_toggle (open_raises start_raises : option Exn)
    (platform_cast : float32 → Z) (now : datetime) : M unit :=
  let! a := self in
  if negb (recording a) then _start_recording open_raises start_raises
  else _stop_recording platform_cast now.

(** ** The sample library *)

Definition no_samples_item : pystr :=
  py "(no samples " ++ [8212%N] ++ py " record one)".

(** [_populate_samples], as [__init__] calls it: the box's signal
    [currentTextChanged] is connected to [_on_sample_changed] only after that
    call. *)
Definition _populate_samples : M unit :=
  update (λ a, set_sample_combo (clear (sample_combo a)) a) ;;
  let! d := get_fs in
  let samples := list_samples d in
  match samples with
  | [] => update (λ a, set_sample_combo (addItem no_samples_item (sample_combo a)) a)
  | _ => update (λ a, set_sample_combo
                        (fold_left (λ cb s, addItem s cb) samples (sample_combo a)) a)
  end.

(** [_refresh_samples]: what it does to the sample box. By the time it runs,
    [currentTextChanged] is connected, and Qt runs [_on_sample_changed] as the
    current text of the box changes under [clear], [addItem] and
    [setCurrentIndex]; that slot writes the reference-text line edit only, and
    its runs are left out here: of the world after [_refresh_samples], the box
    is as the code leaves it and the line edit is not. *)
Definition _refresh_samples : M unit :=
  _populate_samples ;;
  update (λ a, set_sample_combo
                 (setCurrentIndex (count (sample_combo a) - 1) (sample_combo a)) a).

(** [_save_ref_text] *)
Definition _save_ref_text : M unit :=
  let! a := self in
  let sample_name := currentText (sample_combo a) in
  match with_suffix sample_name (py ".txt") with
  | None => raise ValueError_empty_name
  | Some txt_path =>
      let ref_text := strip (ref_text_edit a) in
      let! d := get_fs in
      match ref_text with
      | [] => ret tt
      | _ => if dir_exists d then put_fs (write_file d txt_path (TextFile ref_text))
             else ret tt
      end
  end.

(** [_on_sample_changed] *)
Definition _on_sample_changed (name : pystr) : M unit :=
  match with_suffix name (py ".txt") with
  | None => raise ValueError_empty_name
  | Some txt_path =>
      let! d := get_fs in
      if path_exists d txt_path then
        match lookup_file d txt_path ≫= read_text with
        | Some s => update (set_ref_text_edit (strip s))
        | None => raise UnicodeDecodeError
        end
      else update (set_ref_text_edit [])
  end.

(** ** Model loading *)

(** The body of the loader thread, [_load_model]; [load_model] is the
    collaborator's loader. *)
Definition _load_model (load_model : pystr → outcome Model) (mode : Mode) : M unit :=
  emit (CallLoadModel (MODELS mode)) ;;
  match load_model (MODELS mode) with
  | Exc e => raise e
  | Ret model =>
      update (λ a, set_models (<[mode := model]> (models a)) a) ;;
      let voices :=
        match mode with CustomVoice => get_supported_speakers model | _ => [] end in
      emit (EmitModelReady mode voices)
  end.

(** [_on_model_ready]; [_update_ui_for_mode] only shows and hides widgets. *)
Definition _on_model_ready (mode : Mode) (voices : list pystr) : M unit :=
  match mode with
  | CustomVoice =>
      update (λ a, set_voice_combo
                     (fold_left (λ cb v, addItem v cb) voices (clear (voice_combo a))) a) ;;
      update (set_voice_combo_enabled true)
  | _ => ret tt
  end ;;
  update (set_say_btn_enabled true) ;;
  update (set_status_label (py "Ready")).

(** [_on_mode_changed] *)
Definition _on_mode_changed (mode : Mode) : M unit :=
  update (set_current_mode mode) ;;
  let! a := self in
  match models a !! mode with
  | Some _ => ret tt
  | None =>
      update (set_say_btn_enabled false) ;;
      update (set_status_label (py "Loading " ++ mode_name mode ++ py " model...")) ;;
      emit (StartThread (LoadModelThread mode))
  end.

(** ** The generation orchestrator *)

(** [_set_status] and [_on_done], the slots of the worker's two signals. *)
Definition _set_status (text : pystr) : M unit := update (set_status_label text).

Definition _on_done : M unit :=
  update (set_say_btn_enabled true) ;;
  update (set_status_label (py "Ready")).

(** [_on_say]. The path handed on as [ref_audio] is written as the name of
    the sample inside the directory; [selectAll] and [setFocus] only move
    the cursor of the text box. *)
Definition _on_say : M unit :=
  let! a := self in
  let text := strip (text_edit a) in
  match text with
  | [] => ret tt
  | _ =>
    if negb (say_btn_enabled a) then ret tt else
    let mode := current_mode a in
    let voice := currentText (voice_combo a) in
    let instruct := match strip (instruct_edit a) with [] => None | i => Some i end in
    match py_index (devices a) (currentIndex (device_combo a)) with
    | None => raise IndexError
    | Some (dev_idx, _) =>
        let start ref_audio ref_text :=
          update (set_say_btn_enabled false) ;;
          update (set_status_label (py "Generating...")) ;;
          emit (StartThread (GenerateThread
                  (mkGenerateArgs mode text voice instruct ref_audio ref_text dev_idx))) in
        match mode with
        | VoiceClone =>
            let sample_name := currentText (sample_combo a) in
            let! d := get_fs in
            if negb (path_exists d sample_name) then
              update (set_status_label (py "Record a sample first"))
            else
              let ref_text := strip (ref_text_edit a) in
              match ref_text with
              | [] => update (set_status_label (py "Enter reference text"))
              | _ => start (Some sample_name) (Some ref_text)
              end
        | _ => start None None
        end
    end
  end.

(** The synthesis call of [_generate], by mode, and the event that records
    it. *)
Definition synthesize (model : Model) (g : GenerateArgs) : Event * Results :=
  match ga_mode g with
  | CustomVoice =>
      (CallGenerateCustomVoice (ga_text g) (ga_voice g) (py "auto") (ga_instruct g),
       generate_custom_voice model (ga_text g) (ga_voice g) (py "auto") (ga_instruct g))
  | VoiceDesign =>
      let instruct := match ga_instruct g with Some i => i | None => [] end in
      (CallGenerateVoiceDesign (ga_text g) (py "auto") instruct,
       generate_voice_design model (ga_text g) (py "auto") instruct)
  | VoiceClone =>
      (CallGenerate (ga_text g) (ga_ref_audio g) (ga_ref_text g),
       generate model (ga_text g) (ga_ref_audio g) (ga_ref_text g))
  end.

(** The [try] block of [_generate]. After the loop over the results,
    [result] is the last one yielded. *)
Definition _generate_try (sd : SoundDevice) (g : GenerateArgs) : M unit :=
  let! a := self in
  match models a !! ga_mode g with
  | None => raise (KeyError (ga_mode g))
  | Some model =>
      let '(ev, results) := synthesize model g in
      emit ev ;;
      match raised results with
      | Some e => raise e
      | None =>
          match yielded results with
          | [] => raise ValueError_concatenate
          | first :: rest =>
              let chunks := List.map audio (first :: rest) in
              let data := concat chunks in
              let result := List.last rest first in
              let sr := sample_rate result in
              emit (EmitStatus (py "Playing...")) ;;
              call (CallPlay data sr (ga_device_idx g))
                   (play_raises sd data sr (ga_device_idx g)) ;;
              call CallWait (wait_raises sd)
          end
      end
  end.

(** [_generate], the body of the worker thread. *)
Definition _generate (sd : SoundDevice) (g : GenerateArgs) : M unit :=
  let! returned :=
    try_except
      (_generate_try sd g ;; ret false)
      (λ e, emit (EmitStatus (py "Error: " ++ exn_str e)) ;;
            emit EmitDone ;;
            ret true) in
  if returned then ret tt else emit EmitDone.

(** ** The state [__init__] leaves *)

(** The loop over [enumerate(self.devices)]: the index of the last device
    whose id is the default one, 0 when there is none. *)
Definition default_idx (devs : list (Z * pystr)) (default_dev : Z) : Z :=
  fold_left (λ acc p, if (fst (snd p) =? default_dev) then fst p else acc)
            (zip (List.map Z.of_nat (seq 0 (length devs))) devs) 0.

(** The fields of [App] at the end of [__init__], which also starts the
    thread that loads the [CustomVoice] model. *)
Definition App_init (devs : list (Z * pystr)) (default_dev : Z) (d : samples_dir) : App :=
  let device_combo :=
    setCurrentIndex (default_idx devs default_dev)
      (fold_left (λ cb p, addItem (snd p) cb) devs (clear (mkComboBox [] (-1)))) in
  let samples := list_samples d in
  let sample_combo :=
    match samples with
    | [] => addItem no_samples_item (clear (mkComboBox [] (-1)))
    | _ => fold_left (λ cb s, addItem s cb) samples (clear (mkComboBox [] (-1)))
    end in
  mkApp devs device_combo (mkComboBox [] (-1)) false sample_combo
        [] [] [] (py "Loading model...") false (py "Record") false
        false [] None ∅ CustomVoice.

(** ** Concrete values for the examples *)

Definition f32_quarter : float32 := S754_finite false 8388608 (-25).
Definition f32_half : float32 := S754_finite false 8388608 (-24).
Definition f32_two : float32 := S754_finite false 8388608 (-22).

Definition cast_zero : float32 → Z := λ _, 0.

Definition noon : datetime := mkDatetime 2024 1 1 12 0 0 false.

Definition speakers_device : list (Z * pystr) := [(0, py "Speakers")].

(** A directory that already holds a sample called [voice.wav]. *)
Definition dir_voice : samples_dir :=
  Some (<[py "voice.wav" := WaveFile 1 2 24000 [0; 0]]> ∅).

(** A recording session: [_start_recording] with a stream that opens and
    starts, one callback per chunk, and [_stop_recording]. *)
Definition capture_session (platform_cast : float32 → Z) (now : datetime)
    (chunks : list (list float32)) : M unit :=
  _start_recording None None ;;
  fold_right (λ chunk rest, callback chunk ;; rest) (ret tt) chunks ;;
  _stop_recording platform_cast now.

(** A directory that holds one recording, made at 01:59:59 local time on the
    night the clocks go back, and the local time five seconds after they
    did. *)
Definition dir_before_fallback : samples_dir :=
  Some (<[py "20241103_015959.wav" := WaveFile 1 2 24000 [0; 0]]> ∅).
Definition after_fallback : datetime := mkDatetime 2024 11 3 1 0 5 true.

(** A world where the sample [voice.wav] is selected and the line edit holds
    the given reference text. *)
Definition world_voice (ref_text : pystr) : World :=
  mkWorld (set_ref_text_edit ref_text (App_init speakers_device 0 dir_voice)) dir_voice.

(** ** Reading a time stamp back *)

(** The value of a decimal digit, and of a non-empty string of them. *)
Definition digit_value (c : N) : option Z :=
  if ((48 <=? c) && (c <=? 57))%N then Some (Z.of_N c - 48) else None.

Fixpoint decimal_from (acc : Z) (s : pystr) : option Z :=
  match s with
  | [] => Some acc
  | c :: s' =>
      match digit_value c with
      | Some v => decimal_from (acc * 10 + v) s'
      | None => None
      end
  end.

Definition decimal_value (s : pystr) : option Z :=
  match s with [] => None | _ => decimal_from 0 s end.

(** A [datetime] with a four-digit year, as the clock gives it. *)
Definition valid_datetime (t : datetime) : Prop :=
  1000 ≤ year t ≤ 9999 ∧ 1 ≤ month t ≤ 12 ∧ 1 ≤ day t ≤ 31 ∧
  0 ≤ hour t ≤ 23 ∧ 0 ≤ minute t ≤ 59 ∧ 0 ≤ second t ≤ 59.

(** A name of the form YYYYMMDD_HHMMSS.wav that spells the fields of [t]. *)
Definition spells_timestamp (name : pystr) (t : datetime) : Prop :=
  length name = 19%nat ∧
  decimal_value (take 4 name) = Some (year t) ∧
  decimal_value (take 2 (drop 4 name)) = Some (month t) ∧
  decimal_value (take 2 (drop 6 name)) = Some (day t) ∧
  take 1 (drop 8 name) = py "_" ∧
  decimal_value (take 2 (drop 9 name)) = Some (hour t) ∧
  decimal_value (take 2 (drop 11 name)) = Some (minute t) ∧
  decimal_value (take 2 (drop 13 name)) = Some (second t) ∧
  drop 15 name = py ".wav".

Definition is_wave (f : file) : bool :=
  match f with WaveFile _ _ _ _ => true | TextFile _ => false end.

(** ** The conversion of a sample, as the specification words it *)

(** The nearest integer of a finite float32, ties to the even one. *)
Definition round_half_even (x : float32) : option Z :=
  match x with
  | S754_zero _ => Some 0
  | S754_finite s m e =>
      if 0 <=? e then Some (cond_Zopp s (Z.pos m * 2 ^ e))
      else
        let d := 2 ^ (- e) in
        let q := Z.pos m / d in
        let r := Z.pos m mod d in
        Some (cond_Zopp s
                (if 2 * r <? d then q
                 else if d <? 2 * r then q + 1
                 else if Z.even q then q else q + 1))
  | S754_infinity _ | S754_nan => None
  end.

Definition clamp_int16 (z : Z) : Z := Z.max (-32768) (Z.min 32767 z).

(** "Round after scaling by 32767, clamped to the int16 range." *)
Definition spec_to_int16 (x : float32) : option Z :=
  clamp_int16 <$> round_half_even (f32_mul x (f32_of_int 32767)).

(** [z] is the integer part, towards zero, of the float32 with sign [s],
    mantissa [m] and exponent [e], whose value is [(-1)^s * m * 2^e]: its
    magnitude [a] satisfies [a <= m * 2^e < a + 1]. *)
Definition integer_part_of (z : Z) (s : bool) (m : positive) (e : Z) : Prop :=
  0 ≤ cond_Zopp s z ∧
  cond_Zopp s z * 2 ^ Z.max 0 (- e) ≤ Z.pos m * 2 ^ Z.max 0 e ∧
  Z.pos m * 2 ^ Z.max 0 e < (cond_Zopp s z + 1) * 2 ^ Z.max 0 (- e).

(** ** Reading a trace *)

Definition is_done (ev : Event) : bool :=
  match ev with EmitDone => true | _ => false end.

Definition is_play (ev : Event) : bool :=
  match ev with CallPlay _ _ _ => true | _ => false end.

Definition is_synthesis (ev : Event) : bool :=
  match ev with
  | CallGenerateCustomVoice _ _ _ _ | CallGenerateVoiceDesign _ _ _
  | CallGenerate _ _ _ => true
  | _ => false
  end.

Definition is_load (ev : Event) : bool :=
  match ev with
  | CallLoadModel _ | StartThread (LoadModelThread _) => true
  | _ => false
  end.

Definition is_start_thread (ev : Event) : bool :=
  match ev with StartThread _ => true | _ => false end.

(** [s.startswith(prefix)] *)
Fixpoint startswith (s prefix : pystr) : bool :=
  match prefix, s with
  | [], _ => true
  | p :: prefix', c :: s' => (c =? p)%N && startswith s' prefix'
  | _ :: _, [] => false
  end.

(** The error descriptions a trace carries: the texts of its status
    signals that start with ["Error: "]. *)
Definition error_statuses (tr : list Event) : list pystr :=
  omap (λ ev, match ev with
              | EmitStatus t => if startswith t (py "Error: ") then Some t else None
              | _ => None
              end) tr.

(** A sound device that plays without raising. *)
Definition quiet_device : SoundDevice := mkSoundDevice (λ _ _ _, None) None.

(** A model whose every synthesis call yields the given results. *)
Definition model_yielding (r : Results) : Model :=
  mkModel (λ _ _ _ _, r) (λ _ _ _, r) (λ _ _ _, r) [py "A"].

(** Two segments with different sample rates. *)
Definition two_rates : Results :=
  mkResults [mkSegment [f32_quarter] 24000; mkSegment [f32_half] 16000] None.

(** A synthesis that raises after yielding one segment. *)
Definition raises_midway : Results :=
  mkResults [mkSegment [f32_quarter] 24000]
            (Some (mkExn (py "RuntimeError") (py "out of memory") true)).

(** A world where the [CustomVoice] model is loaded. *)
Definition world_loaded (model : Model) : World :=
  mkWorld (set_models {[CustomVoice := model]} (App_init speakers_device 0 None)) None.

(** A request to say "Hello world" with voice "A" and no instruction. *)
Definition hello_request : GenerateArgs :=
  mkGenerateArgs CustomVoice (py "Hello world") (py "A") None None None 0.

Definition set_text_edit v (a : App) : App :=
  mkApp (devices a) (device_combo a) (voice_combo a) (voice_combo_enabled a)
    (sample_combo a) (ref_text_edit a) (instruct_edit a) v (status_label a)
    (say_btn_enabled a) (record_btn_text a) (record_btn_checked a) (recording a)
    (recorded_frames a) (input_stream a) (models a) (current_mode a).

(** [_on_say] rejects the submission: it returns without an event, leaves
    the directory alone and changes at most the status label. *)
Definition rejected (w : World) : Prop :=
  ∃ status, _on_say w = (mkWorld (set_status_label status (app w)) (fs w), [], Ret tt).

(** The request [_on_say] builds from the widgets, for the device [dev]. *)
Definition request_of (a : App) (dev : Z) : GenerateArgs :=
  mkGenerateArgs (current_mode a) (strip (text_edit a)) (currentText (voice_combo a))
    (match strip (instruct_edit a) with [] => None | i => Some i end)
    (match current_mode a with
     | VoiceClone => Some (currentText (sample_combo a)) | _ => None end)
    (match current_mode a with
     | VoiceClone => Some (strip (ref_text_edit a)) | _ => None end)
    dev.

(** A world after the [CustomVoice] model was loaded and announced: the
    button is enabled and the status reads ["Ready"]. *)
Definition world_ready (model : Model) (text : pystr) : World :=
  mkWorld (set_text_edit text
            (set_status_label (py "Ready")
              (set_say_btn_enabled true
                (set_models {[CustomVoice := model]} (App_init speakers_device 0 None)))))
          None.

(** ** The application at run time: handlers, threads and signals *)

#[global] Instance GenerateArgs_eq_dec : EqDecision GenerateArgs.
Proof. solve_decision. Defined.
#[global] Instance Thread_eq_dec : EqDecision Thread.
Proof. solve_decision. Defined.

(** The slot connected to a signal, as [__init__] connects them. *)
Definition slot (ev : Event) : M unit :=
  match ev with
  | EmitModelReady mode voices => _on_model_ready mode voices
  | EmitStatus text => _set_status text
  | EmitDone => _on_done
  | EmitRecordingSaved => _refresh_samples
  | _ => ret tt
  end.

(** The signals of a trace reach their slots in order; no slot emits a
    signal or starts a thread itself. *)
Definition deliver (tr : list Event) (w : World) : World :=
  fold_left (λ w ev, world_after (slot ev w)) tr w.

(** The threads a trace starts. *)
Definition started (tr : list Event) : list Thread :=
  omap (λ ev, match ev with StartThread t => Some t | _ => None end) tr.

(** The calls of [load_model] for the model of mode [m]. *)
Definition is_load_of (m : Mode) (ev : Event) : bool :=
  match ev with
  | CallLoadModel identifier => bool_decide (identifier = MODELS m)
  | _ => false
  end.

(** The running application: its world, the threads started and not yet
    run, and everything done so far. *)
Record System : Type := mkSystem {
  world : World; threads : list Thread; log : list Event
}.

(** What can happen next: the user edits the text, picks a mode or asks to
    say the text; a started loader thread runs, [load_model] returning
    [loaded]; a started worker thread runs. *)
Inductive Step : Type :=
  | TextEdited (text : pystr)
  | ModeChanged (m : Mode)
  | Say
  | LoaderRuns (m : Mode) (loaded : outcome Model)
  | WorkerRuns (g : GenerateArgs).

Fixpoint remove_thread (t : Thread) (l : list Thread) : list Thread :=
  match l with
  | [] => []
  | t' :: l' => if decide (t = t') then l' else t' :: remove_thread t l'
  end.

(** Running a piece of code of the application: its events are logged, the
    threads it starts are recorded, and its signals reach their slots as
    soon as it has run, before the next step. *)
Definition exec (c : M unit) (s : System) : System :=
  mkSystem (deliver (trace (c (world s))) (world_after (c (world s))))
           (threads s ++ started (trace (c (world s))))
           (log s ++ trace (c (world s))).

Definition step (sd : SoundDevice) (s : System) (st : Step) : System :=
  match st with
  | TextEdited text => exec (update (set_text_edit text)) s
  | ModeChanged m => exec (_on_mode_changed m) s
  | Say => exec _on_say s
  | LoaderRuns m loaded =>
      if bool_decide (LoadModelThread m ∈ threads s)
      then exec (_load_model (λ _, loaded) m)
                (mkSystem (world s) (remove_thread (LoadModelThread m) (threads s)) (log s))
      else s
  | WorkerRuns g =>
      if bool_decide (GenerateThread g ∈ threads s)
      then exec (_generate sd g)
                (mkSystem (world s) (remove_thread (GenerateThread g) (threads s)) (log s))
      else s
  end.

Definition run (sd : SoundDevice) (steps : list Step) (s : System) : System :=
  fold_left (step sd) steps s.

(** The application as [__init__] leaves it, the first loader started. *)
Definition System_init (devs : list (Z * pystr)) (default_dev : Z) (d : samples_dir) : System :=
  mkSystem (mkWorld (App_init devs default_dev d) d)
           [LoadModelThread CustomVoice]
           [StartThread (LoadModelThread CustomVoice)].

(** The worker's request for "hi" in [VoiceDesign] mode. *)
Definition hi_design_request : GenerateArgs :=
  mkGenerateArgs VoiceDesign (py "hi") (py "A") None None None 0.

(** The application once the first loader has run. *)
Definition System_loaded : System :=
  run quiet_device [LoaderRuns CustomVoice (Ret (model_yielding two_rates))]
      (System_init speakers_device 0 None).

(** A string is clean at the front when it does not start with a space. *)
Definition clean_front (s : pystr) : Prop :=
  match s with c :: _ => is_space c = false | [] => True end.

(** ** Output devices *)

(** One entry of [sd.query_devices()]. *)
Record DeviceInfo : Type := mkDeviceInfo {
  dev_name : pystr; max_output_channels : Z
}.

(** The loop of [get_output_devices] from index [i] on. *)
Fixpoint output_devices_from (i : Z) (query : list DeviceInfo) : list (Z * pystr) :=
  match query with
  | [] => []
  | d :: rest =>
      if 0 <? max_output_channels d
      then (i, dev_name d) :: output_devices_from (i + 1) rest
      else output_devices_from (i + 1) rest
  end.

(** [get_output_devices], for the list [sd.query_devices()] gives. *)
Definition get_output_devices (query : list DeviceInfo) : list (Z * pystr) :=
  output_devices_from 0 query.

(** ** Presets *)

(** [PRESETS], in the order of the dict. *)
Definition PRESETS : list (pystr * pystr) :=
  [(py "Happy", py "Happy and cheerful.");
   (py "Sad", py "Sad and melancholic.");
   (py "Angry", py "Angry and intense.");
   (py "Excited", py "Very excited and energetic.");
   (py "Calm", py "Calm and soothing.");
   (py "Whisper", py "Soft whispering voice.")].

(** [self.preset_buttons]: each button's name and whether it is checked. *)
Abbreviation preset_buttons := (list (pystr * bool)).

(** [self.preset_buttons] as [__init__] builds it: one unchecked button per
    preset. *)
Definition preset_buttons_init : preset_buttons :=
  List.map (λ p : pystr * pystr, (fst p, false)) PRESETS.

Definition set_instruct_edit v (a : App) : App :=
  mkApp (devices a) (device_combo a) (voice_combo a) (voice_combo_enabled a)
    (sample_combo a) (ref_text_edit a) v (text_edit a) (status_label a)
    (say_btn_enabled a) (record_btn_text a) (record_btn_checked a) (recording a)
    (recorded_frames a) (input_stream a) (models a) (current_mode a).

Definition StopIteration : Exn := mkExn (py "StopIteration") [] true.

(** [_on_preset]: the buttons after it, and the application object, or the
    [StopIteration] of [next] when no button has the name. *)
Definition _on_preset (name prompt : pystr) (buttons : preset_buttons) (a : App)
    : preset_buttons * outcome App :=
  let buttons' :=
    List.map (λ b : pystr * bool,
                if bool_decide (fst b ≠ name) then (fst b, false) else b) buttons in
  match List.find (λ b : pystr * bool, bool_decide (fst b = name)) buttons' with
  | None => (buttons', Exc StopIteration)
  | Some active =>
      if snd active then (buttons', Ret (set_instruct_edit prompt a))
      else (buttons', Ret (set_instruct_edit [] a))
  end.

(** [_on_instruct_edited] *)
Definition _on_instruct_edited (buttons : preset_buttons) (a : App) : preset_buttons :=
  let text := instruct_edit a in
  List.map (λ b : pystr * bool,
    if snd b then
      let matching := existsb (λ p : pystr * pystr, bool_decide (text = snd p)) PRESETS in
      if negb matching then (fst b, false) else b
    else b) buttons.

(** ** The record button *)

(** What happens to the recorder: the record button is clicked at a given
    time, with what opening and starting a stream would raise at that moment,
    or the stream's callback delivers a chunk. *)
Inductive RecorderEvent : Type :=
  | RecordClicked (now : datetime) (open_raises start_raises : option Exn)
  | ChunkArrives (indata : list float32).

Definition recorder_step (platform_cast : float32 → Z) (ev : RecorderEvent) : M unit :=
  match ev with
  | RecordClicked now open_raises start_raises =>
      _on_record_toggle open_raises start_raises platform_cast now
  | ChunkArrives indata => callback indata
  end.

(** The device lets a stream open and start at this event. *)
Definition stream_opens (ev : RecorderEvent) : bool :=
  match ev with
  | RecordClicked _ None None => true
  | RecordClicked _ _ _ => false
  | ChunkArrives _ => true
  end.

Definition recorder_run (platform_cast : float32 → Z) (evs : list RecorderEvent) : M unit :=
  fold_right (λ ev rest, recorder_step platform_cast ev ;; rest) (ret tt) evs.

(** The record button and the stream agree: while [recording] is set, the
    attribute [input_stream] exists. *)
Definition recorder_consistent (w : World) : Prop :=
  recording (app w) = true → is_Some (input_stream (app w)).

(** ** What ends the worker's [try] block *)

(** The exception that ends the [try] block of [_generate], if any, read off
    the cache and the collaborators in the order the block consults them:
    the failed lookup [self.models[mode]], what the synthesis raises, the
    concatenation of no array, what [sd.play] raises on the audio it is
    given, what [sd.wait] raises. *)
Definition first_raised (sd : SoundDevice) (g : GenerateArgs) (w : World) : option Exn :=
  match models (app w) !! ga_mode g with
  | None => Some (KeyError (ga_mode g))
  | Some model =>
      let results := snd (synthesize model g) in
      match raised results, yielded results with
      | Some e, _ => Some e
      | None, [] => Some ValueError_concatenate
      | None, first :: rest =>
          match play_raises sd (concat (List.map audio (first :: rest)))
                  (sample_rate (List.last rest first)) (ga_device_idx g) with
          | Some e => Some e
          | None => wait_raises sd
          end
      end
  end.

(** A synthesis that ends the interpreter's thread after one segment:
    [SystemExit] does not derive from [Exception]. *)
Definition exits_midway : Results :=
  mkResults [mkSegment [f32_quarter] 24000]
            (Some (mkExn (py "SystemExit") (py "1") false)).

(** A sound device whose [sd.play] raises [e]. *)
Definition device_failing_play (e : Exn) : SoundDevice :=
  mkSoundDevice (λ _ _ _, Some e) None.

(** ** A synthesis on a given handle *)

(** The worker's trace [tr] for the request [g] is that of a synthesis run on
    the handle [model]: it starts with the call of [model]'s entry point for
    the mode; if what that call returns raises, the error statuses of the
    trace are the description of that exception (none when it is not of class
    [Exception]); if it yields segments and does not raise, the one play call
    of the trace plays the audio of those segments. *)
Definition synthesis_on (model : Model) (g : GenerateArgs) (tr : list Event) : Prop :=
  head tr = Some (fst (synthesize model g)) ∧
  (∀ e, raised (snd (synthesize model g)) = Some e →
        error_statuses tr = if is_Exception e then [py "Error: " ++ exn_str e] else []) ∧
  (∀ first rest,
     snd (synthesize model g) = mkResults (first :: rest) None →
     List.filter is_play tr =
       [CallPlay (concat (List.map audio (first :: rest)))
                 (sample_rate (List.last rest first)) (ga_device_idx g)]).

(** The worker's request for "hi" in [CustomVoice] mode with voice "A". *)
Definition hi_request : GenerateArgs :=
  mkGenerateArgs CustomVoice (py "hi") (py "A") None None None 0.

(** The wall-clock time of [after_fallback] on the first pass through the
    repeated hour, one hour earlier. *)
Definition before_fallback : datetime := mkDatetime 2024 11 3 1 0 5 false.

(** * Properties *)

(** ** Strings *)

Section strings.
Implicit Types s t : pystr.

Lemma str_leb_refl s : str_leb s s = true.
Proof.
  induction s as [|c s IH]; simpl; [done|].
  rewrite N.eqb_refl, IH. by rewrite orb_true_r.
Qed.

Lemma str_leb_total s t : str_leb s t = true ∨ str_leb t s = true.
Proof.
  revert t. induction s as [|x s IH]; intros [|y t]; simpl; auto.
  destruct (N.ltb_spec x y) as [Hxy|Hxy]; [by left|].
  destruct (N.ltb_spec y x) as [Hyx|Hyx]; [by right|].
  assert (x = y) as -> by lia. rewrite N.eqb_refl. simpl. apply IH.
Qed.

Lemma str_leb_trans s t u :
  str_leb s t = true → str_leb t u = true → str_leb s u = true.
Proof.
  revert t u. induction s as [|x s IH]; intros [|y t] [|z u]; simpl; try done.
  rewrite !orb_true_iff, !andb_true_iff, !N.ltb_lt, !N.eqb_eq.
  intros [Hxy|[-> Hst]] [Hyz|[-> Htu]]; eauto with lia.
Qed.

Lemma str_leb_antisym s t :
  str_leb s t = true → str_leb t s = true → s = t.
Proof.
  revert t. induction s as [|x s IH]; intros [|y t]; simpl; try done.
  rewrite !orb_true_iff, !andb_true_iff, !N.ltb_lt, !N.eqb_eq.
  intros [Hxy|[-> Hst]] [Hyx|[Heq Hts]]; try lia.
  f_equal. by apply IH.
Qed.

#[global] Instance str_le_total : Total str_le.
Proof. intros s t. apply str_leb_total. Qed.
#[global] Instance str_le_trans : Transitive str_le.
Proof. intros s t u. apply str_leb_trans. Qed.
#[global] Instance str_le_antisym : AntiSymm (=) str_le.
Proof. intros s t. apply str_leb_antisym. Qed.
#[global] Instance str_le_refl : Reflexive str_le.
Proof. intros s. apply str_leb_refl. Qed.

Lemma lstrip_clean s : clean_front (lstrip s).
Proof.
  induction s as [|c s IH]; simpl; [done|].
  destruct (is_space c) eqn:Hc; [done|]. simpl. done.
Qed.

Lemma lstrip_id s : clean_front s → lstrip s = s.
Proof. destruct s as [|c s]; simpl; [done|]. by intros ->. Qed.

Lemma lstrip_suffix s : ∃ p, s = p ++ lstrip s.
Proof.
  induction s as [|c s [p IH]]; simpl; [by exists []|].
  destruct (is_space c).
  - exists (c :: p). simpl. by f_equal.
  - by exists [].
Qed.

Lemma rstrip_prefix s : ∃ q, s = rstrip s ++ q.
Proof.
  unfold rstrip. destruct (lstrip_suffix (rev s)) as [p Hp].
  exists (rev p). rewrite <- rev_app_distr, <- Hp. by rewrite rev_involutive.
Qed.

Lemma rstrip_clean_front s : clean_front s → clean_front (rstrip s).
Proof.
  destruct (rstrip_prefix s) as [q Hq]. intros Hs.
  destruct (rstrip s) as [|c r] eqn:Hr; [done|].
  rewrite Hq in Hs. done.
Qed.

Lemma rstrip_id s : clean_front (rev s) → rstrip s = s.
Proof. intros H. unfold rstrip. by rewrite lstrip_id, rev_involutive. Qed.

Lemma strip_clean_front s : clean_front (strip s).
Proof. apply rstrip_clean_front, lstrip_clean. Qed.

Lemma strip_clean_back s : clean_front (rev (strip s)).
Proof. unfold strip, rstrip. rewrite rev_involutive. apply lstrip_clean. Qed.

(** Stripping twice is stripping once. *)
Lemma strip_idemp s : strip (strip s) = strip s.
Proof.
  unfold strip at 1. rewrite (lstrip_id (strip s)) by apply strip_clean_front.
  apply rstrip_id, strip_clean_back.
Qed.

(** Text without a carriage return reads back as it was written. *)
Lemma universal_newlines_id s : 13%N ∉ s → universal_newlines s = s.
Proof.
  induction s as [|c s IH]; [done|]. intros Hnot.
  apply not_elem_of_cons in Hnot as [Hc Hs]. simpl.
  destruct (N.eqb_spec c 13) as [->|_]; [done|]. by rewrite IH.
Qed.

Lemma endswith_length s suffix : endswith s suffix = true → (length suffix ≤ length s)%nat.
Proof.
  unfold endswith. rewrite bool_decide_eq_true. intros H.
  rewrite <- H at 1. rewrite length_drop. lia.
Qed.

Lemma with_suffix_Some s suffix : s ≠ [] → s ≠ py "." → is_Some (with_suffix s suffix).
Proof.
  intros Hs Hdot. unfold with_suffix, path_name.
  rewrite bool_decide_eq_false_2 by done.
  destruct s; [done|]. destruct (path_suffix _); eauto.
Qed.

Lemma with_suffix_nonempty s suffix p :
  with_suffix s suffix = Some p → suffix ≠ [] → p ≠ [].
Proof.
  unfold with_suffix. destruct (path_name s); [done|].
  destruct (path_suffix _); intros [= <-] Hsuf Happ; [done|].
  apply app_eq_nil in Happ as [_ ?]. done.
Qed.

Lemma wav_with_suffix s : endswith s (py ".wav") = true → is_Some (with_suffix s (py ".txt")).
Proof.
  intros H. apply endswith_length in H. simpl in H.
  apply with_suffix_Some; intros ->; simpl in H; lia.
Qed.
End strings.

(** ** The sample library *)

Section sample_library.
Implicit Types (d : gmap pystr file) (fs : samples_dir) (n : pystr).

Lemma elem_of_glob_wav d n :
  n ∈ glob_wav d ↔ is_Some (d !! n) ∧ endswith n (py ".wav") = true.
Proof.
  unfold glob_wav. rewrite list_elem_of_filter, list_elem_of_fmap. split.
  - intros [Hw ([n' f] & -> & Hin)]. apply elem_of_map_to_list in Hin. eauto.
  - intros [[f Hf] Hw]. split; [done|]. exists (n, f). split; [done|].
    by apply elem_of_map_to_list.
Qed.

Lemma elem_of_list_samples fs n :
  n ∈ list_samples fs ↔ is_Some (lookup_file fs n) ∧ endswith n (py ".wav") = true.
Proof.
  destruct fs as [d|]; simpl.
  - rewrite merge_sort_Permutation. apply elem_of_glob_wav.
  - split; [by intros ?%elem_of_nil|]. by intros [[? [=]] _].
Qed.

Lemma list_samples_Sorted fs : Sorted str_le (list_samples fs).
Proof. destruct fs; simpl; [apply Sorted_merge_sort, _|constructor]. Qed.

Lemma list_samples_no_dir : list_samples None = [].
Proof. done. Qed.
End sample_library.
Ltac unfold_m :=
  unfold call in *;
  unfold bind, ret, raise, emit, self, update, get_fs, put_fs, try_except,
    trace, world_after, how_ended in *.

Lemma endswith_txt_not_wav n :
  endswith n (py ".txt") = true → endswith n (py ".wav") = false.
Proof.
  unfold endswith. rewrite bool_decide_eq_true, bool_decide_eq_false.
  simpl. intros -> [=].
Qed.

(** C10: [list_samples] returns exactly the names of the directory entries
    that end in [".wav"]; a name that ends in [".txt"], such as a sibling
    transcript, is never in the list. *)
Theorem list_samples_only_wav (fs : samples_dir) :
  (∀ n, n ∈ list_samples fs ↔
        is_Some (lookup_file fs n) ∧ endswith n (py ".wav") = true) ∧
  (∀ n, endswith n (py ".txt") = true → n ∉ list_samples fs).
Proof.
  split; [apply elem_of_list_samples|].
  intros n Htxt [_ Hwav]%elem_of_list_samples.
  apply endswith_txt_not_wav in Htxt. congruence.
Qed.

Lemma save_ref_text_empty w :
  strip (ref_text_edit (app w)) = [] →
  world_after (_save_ref_text w) = w.
Proof.
  intros H. unfold _save_ref_text. unfold_m. simpl.
  destruct (with_suffix _ _); simpl; [|done].
  rewrite H. done.
Qed.

Lemma on_sample_changed_missing w name txt :
  with_suffix name (py ".txt") = Some txt →
  lookup_file (fs w) txt = None →
  _on_sample_changed name w =
    (mkWorld (set_ref_text_edit [] (app w)) (fs w), [], Ret tt).
Proof.
  intros Htxt Hnone. unfold _on_sample_changed. rewrite Htxt. unfold_m. simpl.
  assert (path_exists (fs w) txt = false) as ->; [|done].
  unfold path_exists. destruct (fs w) as [d|]; [|done]. simpl in Hnone.
  rewrite bool_decide_eq_false_2.
  - rewrite bool_decide_eq_false_2; [done|]. rewrite Hnone. by intros [? [=]].
  - eapply with_suffix_nonempty; [done|]. done.
Qed.

(** C9: [_save_ref_text] leaves the directory and the application as they
    were when the reference text is empty once stripped; and for a sample
    of the library whose transcript file is missing, [_on_sample_changed]
    returns normally with the reference text cleared to the empty string. *)
Theorem transcript_empty_write_missing_read :
  (∀ w, strip (ref_text_edit (app w)) = [] →
        world_after (_save_ref_text w) = w) ∧
  (∀ w name, name ∈ list_samples (fs w) →
     ∃ txt, with_suffix name (py ".txt") = Some txt ∧
       (lookup_file (fs w) txt = None →
        _on_sample_changed name w =
          (mkWorld (set_ref_text_edit [] (app w)) (fs w), [], Ret tt))).
Proof.
  split; [apply save_ref_text_empty|].
  intros w name [_ Hwav]%elem_of_list_samples.
  destruct (wav_with_suffix name Hwav) as [txt Htxt].
  exists txt. split; [done|]. by apply on_sample_changed_missing.
Qed.

(** C8 (as amended): for a sample of the library that is selected and a
    reference text that is not empty once stripped and holds no carriage
    return once stripped, [_save_ref_text] followed by [_on_sample_changed]
    for that sample both return, and the line edit then holds exactly the
    stripped text. *)
Theorem transcript_round_trip (w : World) (S : pystr) :
  S ∈ list_samples (fs w) →
  currentText (sample_combo (app w)) = S →
  strip (ref_text_edit (app w)) ≠ [] →
  13%N ∉ strip (ref_text_edit (app w)) →
  how_ended (_save_ref_text w) = Ret tt ∧
  how_ended (_on_sample_changed S (world_after (_save_ref_text w))) = Ret tt ∧
  ref_text_edit (app (world_after (_on_sample_changed S (world_after (_save_ref_text w)))))
    = strip (ref_text_edit (app w)).
Proof.
  intros [Hfile Hwav]%elem_of_list_samples Hsel Hne Hcr.
  destruct (wav_with_suffix S Hwav) as [txt Htxt].
  assert (txt ≠ []) as Htxt_ne by (eapply with_suffix_nonempty; done).
  destruct w as [a [d|]]; simpl in *; [|by destruct Hfile as [? [=]]].
  unfold _save_ref_text, _on_sample_changed. unfold_m. simpl.
  rewrite Hsel, Htxt. simpl.
  destruct (strip (ref_text_edit a)) as [|c t] eqn:Hstrip; [done|].
  cbn -[universal_newlines strip].
  rewrite bool_decide_eq_false_2 by done.
  rewrite bool_decide_eq_true_2 by (rewrite lookup_insert_eq; eauto).
  rewrite lookup_insert_eq. cbn -[universal_newlines strip].
  rewrite universal_newlines_id by done.
  rewrite <- Hstrip, strip_idemp. done.
Qed.

Lemma transcript_round_trip_witness :
  ref_text_edit (app (world_after
    (_on_sample_changed (py "voice.wav")
       (world_after (_save_ref_text (world_voice (py "  hello there ")))))))
  = py "hello there".
Proof.
  refine (proj2 (proj2
    (transcript_round_trip (world_voice (py "  hello there ")) (py "voice.wav") _ _ _ _))).
  - apply (bool_decide_unpack _). vm_compute. exact I.
  - vm_compute. reflexivity.
  - vm_compute. discriminate.
  - apply (bool_decide_unpack _). vm_compute. exact I.
Defined.

(** C8 fails as stated: the text ["a\rb"] is written as it is and read back
    as ["a\nb"]. *)
Lemma transcript_round_trip_carriage_return :
  strip [97; 13; 98]%N = [97; 13; 98]%N ∧
  lookup_file (fs (world_after (_save_ref_text (world_voice [97; 13; 98]%N))))
              (py "voice.txt") = Some (TextFile [97; 13; 98]%N) ∧
  ref_text_edit (app (world_after
    (_on_sample_changed (py "voice.wav")
       (world_after (_save_ref_text (world_voice [97; 13; 98]%N))))))
  = [97; 10; 98]%N.
Proof. vm_compute. repeat split; reflexivity. Qed.

Lemma fold_addItem_items l cb :
  items (fold_left (λ cb s, addItem s cb) l cb) = items cb ++ l.
Proof.
  revert cb. induction l as [|s l IH]; intros cb; simpl.
  - by rewrite app_nil_r.
  - rewrite IH. simpl. by rewrite <- app_assoc.
Qed.

(** After [_refresh_samples] the selected sample is the last entry of
    [list_samples], whenever there is one. *)
Lemma refresh_samples_selects_last w :
  list_samples (fs w) ≠ [] →
  last (list_samples (fs w)) =
    Some (currentText (sample_combo (app (world_after (_refresh_samples w))))).
Proof.
  intros Hne. unfold _refresh_samples, _populate_samples. unfold_m. simpl.
  destruct (list_samples (fs w)) as [|s l] eqn:Hl; [done|]. simpl.
  unfold currentText, setCurrentIndex, count. simpl.
  rewrite fold_addItem_items. cbn [app]. simpl length.
  replace (Z.of_nat (S (length l)) - 1) with (Z.of_nat (length l)) by lia.
  assert ((0 <=? Z.of_nat (length l)) &&
          (Z.of_nat (length l) <? Z.of_nat (S (length l))) = true) as Hin
    by (apply andb_true_iff; split; [apply Z.leb_le|apply Z.ltb_lt]; lia).
  rewrite Hin. simpl. rewrite Hin, Nat2Z.id, last_lookup. simpl.
  clear. revert s. induction l as [|x l IH]; intros s; [done|].
  simpl. destruct l; [done|]. apply (IH x).
Qed.

(** C7 at a failing input: the directory holds a recording made at 01:59:59
    local time, the clocks go back an hour, and a new recording is saved at
    01:00:05. The new file is written and listed, the list is in
    lexicographic order, and [_refresh_samples] selects the older
    recording, which is the last entry. *)
Theorem refresh_samples_selects_older_recording :
  lookup_file
    (fs (world_after
      ((capture_session cast_zero after_fallback [[f32_quarter]] ;; _refresh_samples)
         (mkWorld (App_init speakers_device 0 dir_before_fallback) dir_before_fallback))))
    (py "20241103_010005.wav") = Some (WaveFile 1 2 24000 [255; 31]) ∧
  list_samples
    (fs (world_after
      ((capture_session cast_zero after_fallback [[f32_quarter]] ;; _refresh_samples)
         (mkWorld (App_init speakers_device 0 dir_before_fallback) dir_before_fallback))))
    = [py "20241103_010005.wav"; py "20241103_015959.wav"] ∧
  currentText (sample_combo (app (world_after
      ((capture_session cast_zero after_fallback [[f32_quarter]] ;; _refresh_samples)
         (mkWorld (App_init speakers_device 0 dir_before_fallback) dir_before_fallback)))))
    = py "20241103_015959.wav".
Proof. vm_compute. repeat split; reflexivity. Qed.

(** ** The capture recorder *)

Lemma decimal_pad2 n : 0 ≤ n ≤ 99 → decimal_value (pad2 n) = Some n.
Proof.
  intros Hn. unfold decimal_value, pad2, decimal_from, digit_value, digit.
  assert (0 ≤ (n / 10) mod 10 ≤ 9 ∧ 0 ≤ n mod 10 ≤ 9) as [H1 H2]
    by (split; apply Z.mod_pos_bound || (pose proof (Z.mod_pos_bound (n / 10) 10);
        pose proof (Z.mod_pos_bound n 10); lia)).
  rewrite !(proj2 (andb_true_iff _ _)) by (split; apply N.leb_le; lia).
  f_equal. rewrite !Z2N.id by lia.
  Z.to_euclidean_division_equations. lia.
Qed.

Lemma decimal_pad4 n : 0 ≤ n ≤ 9999 → decimal_value (pad4 n) = Some n.
Proof.
  intros Hn. unfold decimal_value, pad4, decimal_from, digit_value, digit.
  pose proof (Z.mod_pos_bound (n / 1000) 10).
  pose proof (Z.mod_pos_bound (n / 100) 10).
  pose proof (Z.mod_pos_bound (n / 10) 10).
  pose proof (Z.mod_pos_bound n 10).
  rewrite !(proj2 (andb_true_iff _ _)) by (split; apply N.leb_le; lia).
  f_equal. rewrite !Z2N.id by lia.
  Z.to_euclidean_division_equations. lia.
Qed.

Lemma strftime_spells t :
  valid_datetime t → spells_timestamp (strftime_Ymd_HMS t ++ py ".wav") t.
Proof.
  intros (Hy & Hm & Hd & HH & HM & HS). unfold spells_timestamp, strftime_Ymd_HMS.
  cbn [pad4 pad2 app py List.map list_ascii_of_string take drop length].
  repeat split; try done.
  - apply (decimal_pad4 (year t)). lia.
  - apply (decimal_pad2 (month t)). lia.
  - apply (decimal_pad2 (day t)). lia.
  - apply (decimal_pad2 (hour t)). lia.
  - apply (decimal_pad2 (minute t)). lia.
  - apply (decimal_pad2 (second t)). lia.
Qed.

Lemma callbacks_run chunks w :
  fold_right (λ chunk rest, callback chunk ;; rest) (ret tt) chunks w =
    (mkWorld (set_recorded_frames (recorded_frames (app w) ++ chunks) (app w)) (fs w),
     [], Ret tt).
Proof.
  revert w. induction chunks as [|c chunks IH]; intros [a d]; simpl.
  - unfold ret. rewrite app_nil_r. by destruct a.
  - unfold callback, bind, update at 1. simpl. rewrite IH. simpl.
    rewrite <- app_assoc. done.
Qed.

Lemma length_tobytes l : length (tobytes l) = (2 * length l)%nat.
Proof. unfold tobytes. induction l as [|z l IH]; simpl; [done|]. rewrite IH. lia. Qed.

Lemma length_concat_sum {A} (l : list (list A)) :
  length (concat l) = sum_list (length <$> l).
Proof. induction l as [|x l IH]; simpl; [done|]. by rewrite length_app, IH. Qed.

Lemma endswith_app (s suffix : pystr) : endswith (s ++ suffix) suffix = true.
Proof.
  unfold endswith. apply bool_decide_eq_true.
  rewrite length_app, Nat.add_sub. apply drop_app_length.
Qed.

Lemma with_suffix_endswith s suffix p :
  with_suffix s suffix = Some p → endswith p suffix = true.
Proof.
  unfold with_suffix. destruct (path_name s) as [|c n]; [done|].
  destruct (path_suffix _); intros [= <-].
  - apply (endswith_app (c :: n)).
  - apply endswith_app.
Qed.

(** What a session with at least one chunk leaves behind. *)
Lemma capture_session_nonempty platform_cast now chunks w :
  chunks ≠ [] →
  how_ended (capture_session platform_cast now chunks w) = Ret tt ∧
  trace (capture_session platform_cast now chunks w) = [EmitRecordingSaved] ∧
  status_label (app (world_after (capture_session platform_cast now chunks w))) =
    py "Saved " ++ strftime_Ymd_HMS now ++ py ".wav" ∧
  lookup_file (fs (world_after (capture_session platform_cast now chunks w)))
              (strftime_Ymd_HMS now ++ py ".wav") =
    Some (WaveFile 1 2 SAMPLE_RATE
            (tobytes (List.map (to_int16 platform_cast) (concat chunks)))) ∧
  (∀ n f, n ≠ strftime_Ymd_HMS now ++ py ".wav" →
     lookup_file (fs (world_after (capture_session platform_cast now chunks w))) n = Some f →
     is_wave f = true → lookup_file (fs w) n = Some f).
Proof.
  intros Hne. unfold capture_session, bind at 1, bind at 1.
  set (filename := strftime_Ymd_HMS now ++ py ".wav").
  assert (endswith filename (py ".wav") = true) as Hwav.
  { apply endswith_app. }
  destruct (wav_with_suffix filename Hwav) as [txt Htxt].
  assert (txt ≠ filename) as Hdiff.
  { intros ->. apply with_suffix_endswith, endswith_txt_not_wav in Htxt. congruence. }
  destruct w as [a d].
  unfold _start_recording. unfold_m. cbn -[strip strftime_Ymd_HMS py to_int16 tobytes].
  rewrite callbacks_run. cbn -[strip strftime_Ymd_HMS py to_int16 tobytes].
  unfold _stop_recording. unfold_m. cbn -[strip strftime_Ymd_HMS py to_int16 tobytes].
  destruct chunks as [|c chunks]; [done|].
  cbn -[strip strftime_Ymd_HMS py to_int16 tobytes concat].
  fold filename. rewrite Htxt.
  destruct (strip (ref_text_edit a)) as [|x t];
    cbn -[strip strftime_Ymd_HMS py to_int16 tobytes concat];
    (split; [done|]; split; [done|]; split; [done|]);
    destruct d as [d|]; cbn -[strip strftime_Ymd_HMS py to_int16 tobytes concat].
  all: fold filename.
  - rewrite lookup_insert_eq. split; [done|]. intros n f Hn. by rewrite lookup_insert_ne.
  - rewrite lookup_insert_eq. split; [done|]. intros n f Hn. rewrite lookup_insert_ne by done.
    by rewrite lookup_empty.
  - rewrite lookup_insert_ne, lookup_insert_eq by done. split; [done|].
    intros n f Hn. destruct (decide (n = txt)) as [->|Hn'].
    + rewrite lookup_insert_eq. by intros [= <-].
    + by rewrite !lookup_insert_ne.
  - rewrite lookup_insert_ne, lookup_insert_eq by done. split; [done|].
    intros n f Hn. destruct (decide (n = txt)) as [->|Hn'].
    + rewrite lookup_insert_eq. by intros [= <-].
    + rewrite !lookup_insert_ne by done. by rewrite lookup_empty.
Qed.

(** C4: in every capture session, [_stop_recording] returns normally. With
    no chunk captured it writes nothing, emits nothing and shows ["Ready"].
    Otherwise the directory holds, under a name that spells the local time
    as YYYYMMDD_HHMMSS followed by [".wav"], a one-channel wave file of
    two-byte samples at 24000 Hz with as many frames as the chunks have
    samples in total, and no other wave file of the directory is new or
    changed. *)
Theorem stop_recording_wave_file platform_cast now chunks w :
  valid_datetime now →
  how_ended (capture_session platform_cast now chunks w) = Ret tt ∧
  match chunks with
  | [] =>
      fs (world_after (capture_session platform_cast now chunks w)) = fs w ∧
      trace (capture_session platform_cast now chunks w) = [] ∧
      status_label (app (world_after (capture_session platform_cast now chunks w)))
        = py "Ready"
  | _ =>
      ∃ name frames,
        spells_timestamp name now ∧
        lookup_file (fs (world_after (capture_session platform_cast now chunks w))) name
          = Some (WaveFile 1 2 24000 frames) ∧
        getnframes (WaveFile 1 2 24000 frames)
          = Z.of_nat (sum_list (length <$> chunks)) ∧
        (∀ n f, n ≠ name →
           lookup_file (fs (world_after (capture_session platform_cast now chunks w))) n
             = Some f →
           is_wave f = true → lookup_file (fs w) n = Some f)
  end.
Proof.
  intros Hnow. destruct chunks as [|c chunks].
  - destruct w as [a d]. unfold capture_session, _start_recording, _stop_recording.
    unfold_m. simpl. done.
  - destruct (capture_session_nonempty platform_cast now (c :: chunks) w)
      as (Hret & _ & _ & Hfile & Hothers); [done|].
    split; [done|].
    exists (strftime_Ymd_HMS now ++ py ".wav"),
      (tobytes (List.map (to_int16 platform_cast) (concat (c :: chunks)))).
    split; [by apply strftime_spells|]. split; [done|]. split; [|done].
    unfold getnframes. rewrite length_tobytes, length_map, length_concat_sum.
    rewrite Nat2Z.inj_mul, Z.mul_comm. apply Z.div_mul. done.
Qed.

Lemma stop_recording_wave_file_witness :
  how_ended (capture_session cast_zero noon [[f32_quarter]; [f32_half; f32_two]]
               (mkWorld (App_init speakers_device 0 None) None)) = Ret tt.
Proof.
  refine (proj1 (stop_recording_wave_file cast_zero noon [[f32_quarter]; [f32_half; f32_two]]
                   (mkWorld (App_init speakers_device 0 None) None) _)).
  unfold valid_datetime. simpl. lia.
Defined.

Lemma trunc_integer_part s m e :
  Z.pos m * 2 ^ Z.max 0 e < 32768 * 2 ^ Z.max 0 (- e) →
  in_int16 (cond_Zopp s (Z.shiftl (Z.pos m) e)) = true ∧
  integer_part_of (cond_Zopp s (Z.shiftl (Z.pos m) e)) s m e.
Proof.
  intros Hlt. set (q := Z.shiftl (Z.pos m) e).
  assert (0 ≤ q ∧ q * 2 ^ Z.max 0 (- e) ≤ Z.pos m * 2 ^ Z.max 0 e ∧
          Z.pos m * 2 ^ Z.max 0 e < (q + 1) * 2 ^ Z.max 0 (- e)) as (Hq0 & Hlo & Hhi).
  { unfold q. destruct (Z.le_gt_cases 0 e) as [He|He].
    - rewrite Z.shiftl_mul_pow2 by done.
      rewrite (Z.max_r 0 e), (Z.max_l 0 (- e)) by lia.
      assert (0 < 2 ^ e) by (apply Z.pow_pos_nonneg; lia). nia.
    - rewrite Z.shiftl_div_pow2 by lia.
      rewrite (Z.max_l 0 e), (Z.max_r 0 (- e)) by lia.
      assert (0 < 2 ^ (- e)) as Hd by (apply Z.pow_pos_nonneg; lia).
      pose proof (Z.div_mod (Z.pos m) (2 ^ (- e)) ltac:(lia)) as Hdm.
      pose proof (Z.mod_pos_bound (Z.pos m) (2 ^ (- e)) Hd) as Hmod.
      assert (0 ≤ Z.pos m / 2 ^ (- e)) by (apply Z.div_pos; lia).
      nia. }
  assert (q < 32768) as Hq.
  { assert (0 < 2 ^ Z.max 0 (- e)) by (apply Z.pow_pos_nonneg; lia). nia. }
  split.
  - unfold in_int16. apply andb_true_iff.
    destruct s; simpl; split; (apply Z.leb_le; lia).
  - unfold integer_part_of.
    assert (cond_Zopp s (cond_Zopp s q) = q) as -> by (destruct s; simpl; lia).
    done.
Qed.

(** C5 (as amended): when [_stop_recording] persists a non-empty recording,
    the frames it writes are the bytes of the samples converted one by one
    by [to_int16]: the sample is multiplied by 32767 in single precision
    and, where the product lies strictly between -32768 and 32768, the
    stored integer is its integer part towards zero (the fraction is
    dropped, not rounded); nothing is clamped. *)
Theorem stop_recording_truncates_samples platform_cast now chunks w :
  chunks ≠ [] →
  lookup_file (fs (world_after (capture_session platform_cast now chunks w)))
              (strftime_Ymd_HMS now ++ py ".wav") =
    Some (WaveFile 1 2 SAMPLE_RATE
            (tobytes (List.map (to_int16 platform_cast) (concat chunks)))) ∧
  ∀ x, match f32_mul x (f32_of_int 32767) with
       | S754_zero _ => to_int16 platform_cast x = 0
       | S754_finite s m e =>
           Z.pos m * 2 ^ Z.max 0 e < 32768 * 2 ^ Z.max 0 (- e) →
           integer_part_of (to_int16 platform_cast x) s m e
       | S754_infinity _ | S754_nan => True
       end.
Proof.
  intros Hne. split; [by apply capture_session_nonempty|].
  intros x. unfold to_int16, astype_int16.
  destruct (f32_mul x (f32_of_int 32767)) as [s|s| |s m e]; try done.
  intros Hlt. cbn [trunc_toward_zero].
  destruct (trunc_integer_part s m e Hlt) as [-> Hpart]. done.
Qed.

Lemma stop_recording_truncates_samples_witness :
  lookup_file (fs (world_after (capture_session cast_zero noon [[f32_quarter]]
                                  (mkWorld (App_init speakers_device 0 None) None))))
              (strftime_Ymd_HMS noon ++ py ".wav") =
    Some (WaveFile 1 2 SAMPLE_RATE (tobytes (List.map (to_int16 cast_zero) (concat [[f32_quarter]])))).
Proof.
  refine (proj1 (stop_recording_truncates_samples cast_zero noon [[f32_quarter]]
                   (mkWorld (App_init speakers_device 0 None) None) _)).
  discriminate.
Defined.

(** C5 fails as stated: the sample 0.25 is scaled to 8191.75, which the
    code stores as 8191 where rounding gives 8192. *)
Lemma to_int16_drops_fraction :
  f32_mul f32_quarter (f32_of_int 32767) = S754_finite false 16776704 (-11) ∧
  to_int16 cast_zero f32_quarter = 8191 ∧
  spec_to_int16 f32_quarter = Some 8192.
Proof. vm_compute. repeat split; reflexivity. Qed.

(** ** The generation worker *)

(** [_generate] only reads the application object. *)
Lemma generate_world sd g w : world_after (_generate sd g w) = w.
Proof.
  destruct w as [a d]. unfold _generate, _generate_try. unfold_m. simpl.
  destruct (models a !! ga_mode g) as [model|]; [|done].
  destruct (synthesize model g) as [ev results]. simpl.
  destruct (raised results) as [e|]; [by destruct (is_Exception e)|].
  destruct (yielded results) as [|first rest]; [done|]. simpl.
  destruct (play_raises sd _ _ _) as [e|]; [by destruct (is_Exception e)|]. simpl.
  destruct (wait_raises sd) as [e|]; [by destruct (is_Exception e)|done].
Qed.


Lemma synthesize_event model g :
  is_done (fst (synthesize model g)) = false ∧
  is_play (fst (synthesize model g)) = false ∧
  is_load (fst (synthesize model g)) = false ∧
  error_statuses [fst (synthesize model g)] = [].
Proof. unfold synthesize. by destruct (ga_mode g). Qed.

Local Arguments error_statuses : simpl never.

Lemma startswith_app (prefix x : pystr) : startswith (prefix ++ x) prefix = true.
Proof.
  induction prefix as [|c prefix IH]; simpl; [by destruct x|].
  by rewrite N.eqb_refl, IH.
Qed.

Lemma error_statuses_error x tl :
  error_statuses (EmitStatus (py "Error: " ++ x) :: tl) =
    (py "Error: " ++ x) :: error_statuses tl.
Proof. unfold error_statuses. cbn -[py]. by rewrite startswith_app. Qed.

Lemma error_statuses_playing tl :
  error_statuses (EmitStatus (py "Playing...") :: tl) = error_statuses tl.
Proof.
  unfold error_statuses. cbn -[py].
  assert (startswith (py "Playing...") (py "Error: ") = false) as -> by (by vm_compute).
  done.
Qed.

Lemma error_statuses_call ev tl :
  match ev with EmitStatus _ => False | _ => True end →
  error_statuses (ev :: tl) = error_statuses tl.
Proof. by destruct ev. Qed.

Lemma error_statuses_done : error_statuses [EmitDone] = [].
Proof. reflexivity. Qed.

Ltac close_generate :=
  rewrite ?error_statuses_done; split_and!;
  first
    [ done
    | by eexists [] | by eexists [_] | by eexists [_; _; _] | by eexists [_; _; _; _]
    | by eexists [_; _], _, _
    | by (intros; simplify_eq/=)
    | by (intros; simplify_eq/=; split_and!)
    | by (intros; destruct_or?; destruct_and?; simplify_eq/=)
    | intros;
      repeat match goal with
      | Hm : Some _ = Some _ |- _ => injection Hm as <-
      | Hs : synthesize ?m ?g = _, H : context [synthesize ?m ?g] |- _ =>
          rewrite Hs in H; cbn [fst snd raised yielded] in H
      end;
      by (destruct_or?; destruct_and?; simplify_eq/=; split_and?) ].

(** C2 (as amended): what [_generate] signals is fixed by what ends its [try]
    block. When nothing is raised, [_generate] returns having emitted [done]
    once, as its last event, after the play call and the wait, and no error
    status. When an exception [e] of class [Exception] is raised, by the
    lookup of the model, the synthesis or the playback, [_generate] returns
    having emitted exactly one error status, ["Error: "] followed by
    [str(e)], and then [done], once: the description travels in a status
    signal and the terminal signal is the one of a success. When [e] is not
    of class [Exception], it leaves [_generate] and neither [done] nor an
    error status is emitted. What the synthesis raises ends the block before
    any play call; what [sd.play] or [sd.wait] raise ends it too. *)
Theorem generate_notifications sd g w :
  match first_raised sd g w with
  | None =>
      how_ended (_generate sd g w) = Ret tt ∧
      List.filter is_done (trace (_generate sd g w)) = [EmitDone] ∧
      error_statuses (trace (_generate sd g w)) = [] ∧
      ∃ pre data sr,
        trace (_generate sd g w) =
          pre ++ [CallPlay data sr (ga_device_idx g); CallWait; EmitDone]
  | Some e =>
      if is_Exception e then
        how_ended (_generate sd g w) = Ret tt ∧
        List.filter is_done (trace (_generate sd g w)) = [EmitDone] ∧
        error_statuses (trace (_generate sd g w)) = [py "Error: " ++ exn_str e] ∧
        ∃ pre,
          trace (_generate sd g w) =
            pre ++ [EmitStatus (py "Error: " ++ exn_str e); EmitDone]
      else
        how_ended (_generate sd g w) = Exc e ∧
        List.filter is_done (trace (_generate sd g w)) = [] ∧
        error_statuses (trace (_generate sd g w)) = []
  end ∧
  (models (app w) !! ga_mode g = None →
     first_raised sd g w = Some (KeyError (ga_mode g))) ∧
  (∀ model e,
     models (app w) !! ga_mode g = Some model →
     raised (snd (synthesize model g)) = Some e →
     first_raised sd g w = Some e ∧
     List.filter is_play (trace (_generate sd g w)) = []) ∧
  (∀ model first rest e,
     models (app w) !! ga_mode g = Some model →
     snd (synthesize model g) = mkResults (first :: rest) None →
     play_raises sd (concat (List.map audio (first :: rest)))
       (sample_rate (List.last rest first)) (ga_device_idx g) = Some e ∨
     play_raises sd (concat (List.map audio (first :: rest)))
       (sample_rate (List.last rest first)) (ga_device_idx g) = None ∧
     wait_raises sd = Some e →
     first_raised sd g w = Some e).
Proof.
  destruct w as [a d]. unfold first_raised, _generate, _generate_try. unfold_m.
  cbn -[py error_statuses].
  destruct (models a !! ga_mode g) as [model|] eqn:Hmodel.
  2: { cbn -[py error_statuses]. rewrite error_statuses_error.
       cbn -[py error_statuses]. close_generate. }
  destruct (synthesize_event model g) as (Hd & Hp & Hl & Herr0).
  destruct (synthesize model g) as [ev results] eqn:Hsyn.
  cbn [fst snd] in *.
  assert (∀ tl, error_statuses (ev :: tl) = error_statuses tl) as Herr.
  { intros tl. unfold error_statuses in *. cbn -[py] in *.
    destruct ev; try done. by destruct (startswith _ _). }
  destruct results as [segments [e|]]; cbn -[py error_statuses].
  { destruct (is_Exception e); cbn -[py error_statuses];
      rewrite ?Hd, ?Hp, ?Herr, ?error_statuses_error; cbn -[py error_statuses].
    all: close_generate. }
  destruct segments as [|first rest]; cbn -[py error_statuses].
  { rewrite Hd, Herr, error_statuses_error. cbn -[py error_statuses].
    close_generate. }
  destruct (play_raises sd _ _ _) as [e1|] eqn:Hplay; cbn -[py error_statuses].
  { destruct (is_Exception e1); cbn -[py error_statuses];
      rewrite ?Hd, ?Herr, ?error_statuses_playing, ?error_statuses_call,
        ?error_statuses_error by done; cbn -[py error_statuses].
    all: close_generate. }
  destruct (wait_raises sd) as [e2|] eqn:Hwait; cbn -[py error_statuses].
  { destruct (is_Exception e2); cbn -[py error_statuses];
      rewrite ?Hd, ?Herr, ?error_statuses_playing, ?error_statuses_call,
        ?error_statuses_error by done; cbn -[py error_statuses].
    all: close_generate. }
  rewrite Hd, Herr, error_statuses_playing, !error_statuses_call by done.
  cbn -[py error_statuses].
  close_generate.
Qed.

(** C2 fails as stated. A synthesis that raises [RuntimeError] makes the
    worker emit two signals, the status with the description and then
    [done], the terminal signal of a success; the same happens when
    [sd.play] raises. And a synthesis that raises [SystemExit] ends the
    worker with no signal at all. *)
Lemma generate_error_is_status_then_done :
  _generate quiet_device hello_request (world_loaded (model_yielding raises_midway)) =
    (world_loaded (model_yielding raises_midway),
     [CallGenerateCustomVoice (py "Hello world") (py "A") (py "auto") None;
      EmitStatus (py "Error: out of memory");
      EmitDone],
     Ret tt) ∧
  trace (_generate
           (device_failing_play (mkExn (py "PortAudioError") (py "Invalid device") true))
           hello_request (world_loaded (model_yielding two_rates))) =
    [CallGenerateCustomVoice (py "Hello world") (py "A") (py "auto") None;
     EmitStatus (py "Playing...");
     CallPlay [f32_quarter; f32_half] 16000 0;
     EmitStatus (py "Error: Invalid device");
     EmitDone] ∧
  _generate quiet_device hello_request (world_loaded (model_yielding exits_midway)) =
    (world_loaded (model_yielding exits_midway),
     [CallGenerateCustomVoice (py "Hello world") (py "A") (py "auto") None],
     Exc (mkExn (py "SystemExit") (py "1") false)).
Proof. split_and!; vm_compute; reflexivity. Qed.

Lemma last_same_rate (first : Segment) rest :
  Forall (λ s, sample_rate s = sample_rate first) rest →
  sample_rate (List.last rest first) = sample_rate first.
Proof.
  induction 1 as [|s rest Hs _ IH]; [done|].
  destruct rest as [|s' rest]; [done|]. exact IH.
Qed.

(** C1 (as amended): when the model for the mode is loaded and the
    synthesis yields at least one segment and does not raise, the worker
    makes exactly one play call: it plays the segments' samples
    concatenated in order, on the requested device, at the sample rate of
    the last segment yielded, which is the rate of the first one whenever
    all segments share one rate. *)
Theorem generate_plays_concatenation sd g w model first rest :
  models (app w) !! ga_mode g = Some model →
  snd (synthesize model g) = mkResults (first :: rest) None →
  List.filter is_play (trace (_generate sd g w)) =
    [CallPlay (concat (List.map audio (first :: rest)))
              (sample_rate (List.last rest first)) (ga_device_idx g)] ∧
  (Forall (λ s, sample_rate s = sample_rate first) rest →
   sample_rate (List.last rest first) = sample_rate first).
Proof.
  intros Hmodel Hres. split; [|apply last_same_rate].
  destruct w as [a d]. simpl in Hmodel.
  unfold _generate, _generate_try. unfold_m. cbn -[py]. rewrite Hmodel.
  destruct (synthesize_event model g) as (_ & Hp & _ & _).
  destruct (synthesize model g) as [ev results]. cbn [fst snd] in Hp, Hres.
  subst results. cbn -[py].
  destruct (play_raises sd _ _ _) as [e1|]; cbn -[py];
    [destruct (is_Exception e1); cbn -[py]; by rewrite Hp|].
  destruct (wait_raises sd) as [e2|]; cbn -[py];
    [destruct (is_Exception e2); cbn -[py]|]; by rewrite Hp.
Qed.

Lemma generate_plays_concatenation_witness :
  List.filter is_play
    (trace (_generate quiet_device hello_request (world_loaded (model_yielding two_rates)))) =
    [CallPlay [f32_quarter; f32_half] 16000 0].
Proof.
  refine (proj1 (generate_plays_concatenation quiet_device hello_request
                   (world_loaded (model_yielding two_rates)) (model_yielding two_rates)
                   (mkSegment [f32_quarter] 24000) [mkSegment [f32_half] 16000] _ _)).
  - vm_compute. reflexivity.
  - reflexivity.
Defined.

(** C1 fails as stated: of two segments at 24000 Hz and 16000 Hz, both are
    played in one buffer at 16000 Hz, the rate of the last one. *)
Lemma generate_plays_at_last_rate :
  yielded two_rates = [mkSegment [f32_quarter] 24000; mkSegment [f32_half] 16000] ∧
  trace (_generate quiet_device hello_request (world_loaded (model_yielding two_rates))) =
    [CallGenerateCustomVoice (py "Hello world") (py "A") (py "auto") None;
     EmitStatus (py "Playing...");
     CallPlay [f32_quarter; f32_half] 16000 0;
     CallWait;
     EmitDone].
Proof. split; [reflexivity|]. vm_compute. reflexivity. Qed.

(** ** Submission *)

Lemma set_status_label_same a : set_status_label (status_label a) a = a.
Proof. by destruct a. Qed.

#[local] Set Warnings "-clear-no-such-hyp".

Ltac on_say_leaf :=
  split_and!; [split|..]; intros;
  first [ done | by eauto | naive_solver | by (exfalso; naive_solver) ].

(** C3 (as amended): [_on_say] rejects a submission, returning with no
    thread started, no collaborator called, the directory untouched and at
    most the status label changed, exactly when the text is empty once
    stripped, or the say button is disabled, or the output device resolves
    and the mode is [VoiceClone] with the selected sample missing or the
    reference text empty once stripped. The first two rejections are
    silent (the world is left as it was); the clone-mode ones show
    ["Record a sample first"] and ["Enter reference text"]. A submission
    that is not rejected and whose device resolves starts exactly one
    worker, for the request built from the widgets. *)
Theorem on_say_rejection (w : World) :
  (rejected w ↔
     strip (text_edit (app w)) = [] ∨ say_btn_enabled (app w) = false ∨
     (is_Some (py_index (devices (app w)) (currentIndex (device_combo (app w)))) ∧
      current_mode (app w) = VoiceClone ∧
      (path_exists (fs w) (currentText (sample_combo (app w))) = false ∨
       strip (ref_text_edit (app w)) = []))) ∧
  (strip (text_edit (app w)) = [] ∨ say_btn_enabled (app w) = false →
     _on_say w = (w, [], Ret tt)) ∧
  (rejected w → strip (text_edit (app w)) ≠ [] → say_btn_enabled (app w) = true →
     status_label (app (world_after (_on_say w))) =
       if path_exists (fs w) (currentText (sample_combo (app w)))
       then py "Enter reference text" else py "Record a sample first") ∧
  (∀ dev name,
     ¬ rejected w →
     py_index (devices (app w)) (currentIndex (device_combo (app w))) = Some (dev, name) →
     how_ended (_on_say w) = Ret tt ∧
     trace (_on_say w) = [StartThread (GenerateThread (request_of (app w) dev))] ∧
     fs (world_after (_on_say w)) = fs w).
Proof.
  destruct w as [a d]. unfold rejected, request_of, _on_say. unfold_m.
  cbn -[py strip path_exists].
  assert (∃ status, (mkWorld a d, @nil Event, Ret tt) =
                    (mkWorld (set_status_label status a) d, [], Ret tt)) as Hsilent.
  { exists (status_label a). by rewrite set_status_label_same. }
  destruct (strip (text_edit a)) as [|c text] eqn:Htext; [on_say_leaf|].
  destruct (say_btn_enabled a) eqn:Hsay; cbn -[py strip path_exists]; [|on_say_leaf].
  destruct (py_index (devices a) (currentIndex (device_combo a))) as [[dev name]|]
    eqn:Hdev; cbn -[py strip path_exists]; [|on_say_leaf].
  destruct (current_mode a) eqn:Hmode; cbn -[py strip path_exists];
    [on_say_leaf|on_say_leaf|].
  destruct (path_exists d (currentText (sample_combo a))) eqn:Hexists;
    cbn -[py strip path_exists]; [|on_say_leaf].
  destruct (strip (ref_text_edit a)) as [|c' ref_text] eqn:Href;
    cbn -[py strip path_exists]; on_say_leaf.
Qed.

(** ** The model cache *)

Lemma MODELS_inj m m' : MODELS m = MODELS m' → m = m'.
Proof. destruct m, m'; try done; by vm_compute. Qed.

Local Arguments started : simpl never.

Ltac close_no_load Hl Hs Hm :=
  split_and!; [by rewrite Hl | by rewrite Hs | intros ?; by rewrite Hm].

Lemma generate_no_load sd g w :
  List.filter is_load (trace (_generate sd g w)) = [] ∧
  started (trace (_generate sd g w)) = [] ∧
  (∀ m, List.filter (is_load_of m) (trace (_generate sd g w)) = []).
Proof.
  destruct w as [a d]. unfold _generate, _generate_try. unfold_m. cbn -[py].
  destruct (models a !! ga_mode g) as [model|]; [|done].
  assert (is_load (fst (synthesize model g)) = false ∧
          started [fst (synthesize model g)] = [] ∧
          ∀ m, is_load_of m (fst (synthesize model g)) = false) as (Hl & Hs & Hm).
  { unfold synthesize. by destruct (ga_mode g). }
  destruct (synthesize model g) as [ev results]. cbn [fst] in Hl, Hs, Hm.
  assert (∀ tl, started (ev :: tl) = started tl) as Hs'.
  { intros tl. unfold started in *. cbn in *. by destruct ev. }
  destruct (raised results) as [e|]; cbn -[py];
    [destruct (is_Exception e); cbn -[py]; close_no_load Hl Hs' Hm|].
  destruct (yielded results); cbn -[py]; [close_no_load Hl Hs' Hm|].
  destruct (play_raises sd _ _ _) as [e|]; cbn -[py];
    [destruct (is_Exception e); cbn -[py]; close_no_load Hl Hs' Hm|].
  destruct (wait_raises sd) as [e|]; cbn -[py];
    [destruct (is_Exception e); cbn -[py]|]; close_no_load Hl Hs' Hm.
Qed.

Lemma generate_not_loaded sd g w :
  models (app w) !! ga_mode g = None →
  trace (_generate sd g w) =
    [EmitStatus (py "Error: " ++ exn_str (KeyError (ga_mode g))); EmitDone].
Proof.
  destruct w as [a d]. cbn [app]. intros Hnone.
  unfold _generate, _generate_try. unfold_m. cbn -[py]. by rewrite Hnone.
Qed.

(** With the mode's handle cached, the worker's synthesis runs on it. *)
Lemma generate_loaded sd g w model :
  models (app w) !! ga_mode g = Some model →
  synthesis_on model g (trace (_generate sd g w)).
Proof.
  destruct w as [a d]. cbn [app]. intros Hsome.
  unfold synthesis_on, _generate, _generate_try. unfold_m.
  cbn -[py error_statuses]. rewrite Hsome.
  destruct (synthesize_event model g) as (_ & Hp & _ & Herr0).
  destruct (synthesize model g) as [ev results]. cbn [fst snd] in *.
  assert (∀ tl, error_statuses (ev :: tl) = error_statuses tl) as Herr.
  { intros tl. unfold error_statuses in *. cbn -[py] in *.
    destruct ev; try done. by destruct (startswith _ _). }
  destruct results as [segments [e|]]; cbn -[py error_statuses].
  { destruct (is_Exception e) eqn:He; cbn -[py error_statuses];
      rewrite ?Herr, ?error_statuses_error, ?error_statuses_done;
      (split_and!; [done| |done]); intros e' [= <-]; by rewrite He. }
  destruct segments as [|first rest]; cbn -[py error_statuses]; [done|].
  destruct (play_raises sd _ _ _) as [e1|]; cbn -[py error_statuses].
  { destruct (is_Exception e1); cbn -[py error_statuses];
      (split_and!; [done|done|]); intros ?? [= <- <-]; by rewrite Hp. }
  destruct (wait_raises sd) as [e2|]; cbn -[py error_statuses];
    [destruct (is_Exception e2); cbn -[py error_statuses]|];
    (split_and!; [done|done|]); intros ?? [= <- <-]; by rewrite Hp.
Qed.

Lemma on_mode_changed_effects m w :
  models (app (world_after (_on_mode_changed m w))) = models (app w) ∧
  trace (_on_mode_changed m w) =
    match models (app w) !! m with
    | Some _ => []
    | None => [StartThread (LoadModelThread m)]
    end.
Proof.
  destruct w as [a d]. unfold _on_mode_changed. unfold_m. cbn -[py].
  by destruct (models a !! m).
Qed.

Ltac on_say_close Hnil Hgen :=
  split_and!; [done | intros ?; first [apply Hnil | apply Hgen] | done].

Lemma on_say_effects w :
  models (app (world_after (_on_say w))) = models (app w) ∧
  (∀ m, LoadModelThread m ∉ started (trace (_on_say w))) ∧
  (∀ m, List.filter (is_load_of m) (trace (_on_say w)) = []).
Proof.
  destruct w as [a d]. unfold _on_say. unfold_m. cbn -[py strip path_exists].
  assert (∀ m t, LoadModelThread m ∉ [GenerateThread t]) as Hgen.
  { intros m t [=]%list_elem_of_singleton. }
  assert (∀ m, LoadModelThread m ∉ @nil Thread) as Hnil.
  { intros m. apply not_elem_of_nil. }
  destruct (strip (text_edit a)); [on_say_close Hnil Hgen|].
  destruct (say_btn_enabled a); cbn -[py strip path_exists]; [|on_say_close Hnil Hgen].
  destruct (py_index _ _) as [[dev name]|]; cbn -[py strip path_exists];
    [|on_say_close Hnil Hgen].
  destruct (current_mode a); cbn -[py strip path_exists];
    [on_say_close Hnil Hgen|on_say_close Hnil Hgen|].
  destruct (path_exists d (currentText (sample_combo a)));
    cbn -[py strip path_exists]; [|on_say_close Hnil Hgen].
  destruct (strip (ref_text_edit a)); cbn -[py strip path_exists];
    on_say_close Hnil Hgen.
Qed.

Lemma slot_models ev w : models (app (world_after (slot ev w))) = models (app w).
Proof.
  destruct w as [a d], ev; try done.
  - unfold slot, _on_model_ready. unfold_m. by destruct mode.
  - unfold slot, _refresh_samples, _populate_samples. unfold_m. cbn -[py list_samples].
    by destruct (list_samples d).
Qed.

Lemma deliver_models tr w : models (app (deliver tr w)) = models (app w).
Proof.
  revert w. induction tr as [|ev tr IH]; intros w; [done|].
  unfold deliver in *. cbn [fold_left]. by rewrite IH, slot_models.
Qed.

Lemma not_elem_of_remove_thread t t' l : t ∉ l → t ∉ remove_thread t' l.
Proof.
  induction l as [|x l IH]; [done|]. intros [Hx Hl]%not_elem_of_cons. simpl.
  destruct (decide (t' = x)); [done|]. apply not_elem_of_cons. auto.
Qed.

(** One step keeps a cached model that no loader in flight can replace. *)
Lemma step_keeps_cached sd s st m model :
  models (app (world s)) !! m = Some model →
  LoadModelThread m ∉ threads s →
  models (app (world (step sd s st))) !! m = Some model ∧
  (LoadModelThread m ∉ threads (step sd s st)) ∧
  List.filter (is_load_of m) (log (step sd s st)) = List.filter (is_load_of m) (log s).
Proof.
  intros Hm Hthreads. destruct s as [w ths lg]. cbn [world threads log] in *.
  destruct st as [text|m'| |m' loaded|g]; cbn [step world threads log].
  - unfold exec, started. cbn. by rewrite !app_nil_r.
  - unfold exec. cbn [world threads log].
    destruct (on_mode_changed_effects m' w) as [Hmodels Htrace].
    rewrite deliver_models, Hmodels, Htrace, List.filter_app. unfold started.
    destruct (decide (m' = m)) as [->|Hne].
    + rewrite Hm. cbn. by rewrite !app_nil_r.
    + destruct (models (app w) !! m'); cbn; rewrite ?app_nil_r; [done|].
      split; [done|]. split; [|done].
      rewrite not_elem_of_app, list_elem_of_singleton. split; [done|congruence].
  - unfold exec. cbn [world threads log].
    destruct (on_say_effects w) as (Hmodels & Hstart & Hload).
    rewrite deliver_models, Hmodels, List.filter_app, Hload, app_nil_r.
    split; [done|]. split; [|done]. rewrite not_elem_of_app. auto.
  - case_bool_decide as Hin; cbn [world threads log]; [|done].
    assert (m' ≠ m) as Hne by (intros ->; done).
    unfold exec. cbn [world threads log]. rewrite deliver_models.
    destruct w as [a d]. unfold _load_model. unfold_m. cbn -[py MODELS].
    destruct loaded as [loaded|e]; cbn -[py MODELS].
    + rewrite lookup_insert_ne by done. rewrite app_nil_r.
      split; [done|]. split; [by apply not_elem_of_remove_thread|].
      rewrite List.filter_app. cbn -[py MODELS].
      rewrite bool_decide_eq_false_2 by (intros ?%MODELS_inj; done).
      by rewrite app_nil_r.
    + rewrite app_nil_r.
      split; [done|]. split; [by apply not_elem_of_remove_thread|].
      rewrite List.filter_app. cbn -[py MODELS].
      rewrite bool_decide_eq_false_2 by (intros ?%MODELS_inj; done).
      by rewrite app_nil_r.
  - case_bool_decide as Hin; cbn [world threads log]; [|done].
    unfold exec. cbn [world threads log].
    destruct (generate_no_load sd g w) as (_ & Hstart & Hload).
    rewrite deliver_models, generate_world, Hstart, List.filter_app, Hload, !app_nil_r.
    split; [done|]. split; [|done]. by apply not_elem_of_remove_thread.
Qed.

(** C6 (as amended): the synthesis step only looks the handle up in the
    cache: [_generate] never loads a model and leaves the cache as it is; for
    a mode that is not cached it ends with the error status of the
    [KeyError] and [done]; for a cached mode its synthesis runs on the cached
    handle: what the worker reports or plays is what that handle's entry
    point raises or yields. Loading is started by [_on_mode_changed], and
    only for a mode that is not cached. Once a mode's model is cached and no
    loader thread for that mode is in flight, no run of the application
    calls [load_model] for it again, starts a loader for it, or replaces its
    handle, and a synthesis for that mode after any such run runs on that
    same handle. *)
Theorem model_cache_memoized :
  (∀ sd g w,
     world_after (_generate sd g w) = w ∧
     List.filter is_load (trace (_generate sd g w)) = [] ∧
     (models (app w) !! ga_mode g = None →
      trace (_generate sd g w) =
        [EmitStatus (py "Error: " ++ exn_str (KeyError (ga_mode g))); EmitDone]) ∧
     (∀ model, models (app w) !! ga_mode g = Some model →
        synthesis_on model g (trace (_generate sd g w)))) ∧
  (∀ m w,
     trace (_on_mode_changed m w) =
       match models (app w) !! m with
       | Some _ => []
       | None => [StartThread (LoadModelThread m)]
       end) ∧
  (∀ sd steps s m model,
     models (app (world s)) !! m = Some model →
     LoadModelThread m ∉ threads s →
     models (app (world (run sd steps s))) !! m = Some model ∧
     (LoadModelThread m ∉ threads (run sd steps s)) ∧
     List.filter (is_load_of m) (log (run sd steps s)) =
       List.filter (is_load_of m) (log s) ∧
     (∀ sd' g, ga_mode g = m →
        synthesis_on model g (trace (_generate sd' g (world (run sd steps s)))))).
Proof.
  split_and!.
  - intros sd g w. split_and!.
    + apply generate_world.
    + apply generate_no_load.
    + apply generate_not_loaded.
    + intros model. apply generate_loaded.
  - intros m w. apply on_mode_changed_effects.
  - intros sd steps s m model Hm Hth.
    assert (models (app (world (run sd steps s))) !! m = Some model ∧
            (LoadModelThread m ∉ threads (run sd steps s)) ∧
            List.filter (is_load_of m) (log (run sd steps s)) =
              List.filter (is_load_of m) (log s)) as (Hm' & Hth' & Hlog').
    { revert s Hm Hth. induction steps as [|st steps IH]; intros s Hm Hth; [done|].
      cbn [run fold_left].
      destruct (step_keeps_cached sd s st m model Hm Hth) as (Hm' & Hth' & Hlog).
      destruct (IH (step sd s st) Hm' Hth') as (? & ? & Hlog').
      split_and!; [done|done|]. unfold run in Hlog'. by rewrite Hlog', Hlog. }
    split_and!; [done|done|done|].
    intros sd' g <-. by apply generate_loaded.
Qed.

(** After the first load, two submissions of "hi": the log holds the one
    call of [load_model] and two synthesis calls, and the cached handle is
    the one that serves a third. *)
Lemma model_cache_memoized_witness :
  List.filter (λ ev, is_load_of CustomVoice ev || is_synthesis ev)
    (log (run quiet_device
            [TextEdited (py "hi"); Say; WorkerRuns hi_request; Say; WorkerRuns hi_request]
            System_loaded)) =
    [CallLoadModel (MODELS CustomVoice);
     CallGenerateCustomVoice (py "hi") (py "A") (py "auto") None;
     CallGenerateCustomVoice (py "hi") (py "A") (py "auto") None] ∧
  List.filter (is_load_of CustomVoice)
    (log (run quiet_device
            [TextEdited (py "hi"); Say; WorkerRuns hi_request; Say; WorkerRuns hi_request]
            System_loaded)) =
  List.filter (is_load_of CustomVoice) (log System_loaded) ∧
  synthesis_on (model_yielding two_rates) hi_request
    (trace (_generate quiet_device hi_request
              (world (run quiet_device
                        [TextEdited (py "hi"); Say; WorkerRuns hi_request; Say;
                         WorkerRuns hi_request]
                        System_loaded)))).
Proof.
  split; [vm_compute; reflexivity|].
  pose proof (proj2 (proj2 model_cache_memoized) quiet_device
                [TextEdited (py "hi"); Say; WorkerRuns hi_request; Say;
                 WorkerRuns hi_request]
                System_loaded CustomVoice (model_yielding two_rates)) as H.
  destruct H as (_ & _ & Hlog & Hon).
  - vm_compute. reflexivity.
  - apply (bool_decide_unpack _). vm_compute. exact I.
  - split; [exact Hlog|]. apply Hon. reflexivity.
Defined.

(** C6 fails as stated. The user picks [VoiceDesign] while the first model
    loads; that load ends and enables the button; the user says "hi": the
    worker does not load the [VoiceDesign] model, it ends with the error
    of the failed lookup. And picking [VoiceDesign], [CustomVoice] and
    [VoiceDesign] again before any load ends starts two loaders for
    [VoiceDesign], each of which calls [load_model]. *)
Lemma unloaded_mode_errors_and_mode_loads_twice :
  log (run quiet_device
         [ModeChanged VoiceDesign; LoaderRuns CustomVoice (Ret (model_yielding two_rates));
          TextEdited (py "hi"); Say; WorkerRuns hi_design_request]
         (System_init speakers_device 0 None)) =
    [StartThread (LoadModelThread CustomVoice);
     StartThread (LoadModelThread VoiceDesign);
     CallLoadModel (MODELS CustomVoice);
     EmitModelReady CustomVoice [py "A"];
     StartThread (GenerateThread hi_design_request);
     EmitStatus (py "Error: 'VoiceDesign'");
     EmitDone] ∧
  List.filter (is_load_of VoiceDesign)
    (log (run quiet_device
            [ModeChanged VoiceDesign; ModeChanged CustomVoice; ModeChanged VoiceDesign;
             LoaderRuns VoiceDesign (Ret (model_yielding two_rates));
             LoaderRuns VoiceDesign (Ret (model_yielding two_rates))]
            (System_init speakers_device 0 None))) =
    [CallLoadModel (MODELS VoiceDesign); CallLoadModel (MODELS VoiceDesign)].
Proof. split; vm_compute; reflexivity. Qed.

Lemma on_say_rejection_witness :
  trace (_on_say (world_ready (model_yielding two_rates) (py "Hello world"))) =
    [StartThread (GenerateThread
       (request_of (app (world_ready (model_yielding two_rates) (py "Hello world"))) 0))].
Proof.
  refine (proj1 (proj2 (proj2 (proj2 (proj2
            (on_say_rejection (world_ready (model_yielding two_rates) (py "Hello world")))))
            0 (py "Speakers") _ _))).
  - intros Hrej.
    apply (proj1 (on_say_rejection (world_ready (model_yielding two_rates) (py "Hello world"))))
      in Hrej.
    destruct Hrej as [H|[H|(_ & H & _)]]; vm_compute in H; discriminate.
  - vm_compute. reflexivity.
Defined.

(** C3 fails as stated. A text of spaces is rejected without any message:
    the world, status label included, is left as it was. And a text
    submitted in [CustomVoice] mode while the button is disabled is
    rejected as well, although none of the claim's conditions holds. *)
Lemma on_say_rejects_silently :
  _on_say (world_ready (model_yielding two_rates) (py "   ")) =
    (world_ready (model_yielding two_rates) (py "   "), [], Ret tt) ∧
  status_label (app (world_ready (model_yielding two_rates) (py "   "))) = py "Ready" ∧
  _on_say (mkWorld (set_text_edit (py "hi") (App_init speakers_device 0 None)) None) =
    (mkWorld (set_text_edit (py "hi") (App_init speakers_device 0 None)) None, [], Ret tt) ∧
  current_mode (set_text_edit (py "hi") (App_init speakers_device 0 None)) = CustomVoice.
Proof. split_and!; vm_compute; reflexivity. Qed.

(** ** Output devices *)

Lemma elem_of_output_devices_from k query i n :
  (i, n) ∈ output_devices_from k query ↔
  k ≤ i ∧ ∃ d, query !! Z.to_nat (i - k) = Some d ∧ dev_name d = n ∧
               0 < max_output_channels d.
Proof.
  revert k. induction query as [|d rest IH]; intros k; simpl.
  - split; [by intros ?%elem_of_nil|]. by intros (_ & ? & [=] & _).
  - assert ((i, n) ∈ output_devices_from (k + 1) rest ↔
            k < i ∧ ∃ d', (d :: rest) !! Z.to_nat (i - k) = Some d' ∧ dev_name d' = n ∧
                          0 < max_output_channels d') as Hrest.
    { rewrite IH. split.
      - intros (Hk & d' & Hd' & Hn & Hc). split; [lia|]. exists d'. split; [|done].
        replace (Z.to_nat (i - k)) with (S (Z.to_nat (i - (k + 1)))) by lia. done.
      - intros (Hk & d' & Hd' & Hn & Hc). split; [lia|]. exists d'. split; [|done].
        replace (Z.to_nat (i - k)) with (S (Z.to_nat (i - (k + 1)))) in Hd' by lia. done. }
    destruct (Z.ltb_spec 0 (max_output_channels d)) as [Hpos|Hneg].
    + rewrite elem_of_cons, Hrest. split.
      * intros [[= -> ->]|(Hk & Hd)].
        -- split; [lia|]. exists d. rewrite Z.sub_diag. done.
        -- split; [lia|done].
      * intros (Hk & d' & Hd' & Hn & Hc).
        destruct (decide (i = k)) as [->|Hne].
        -- left. rewrite Z.sub_diag in Hd'. simpl in Hd'. by simplify_eq.
        -- right. split; [lia|]. eauto.
    + rewrite Hrest. split.
      * intros (Hk & Hd). split; [lia|done].
      * intros (Hk & d' & Hd' & Hn & Hc).
        destruct (decide (i = k)) as [->|Hne].
        -- rewrite Z.sub_diag in Hd'. simpl in Hd'. simplify_eq. lia.
        -- split; [lia|]. eauto.
Qed.

Lemma output_devices_from_sorted k query :
  StronglySorted (λ p q : Z * pystr, fst p < fst q) (output_devices_from k query).
Proof.
  revert k. induction query as [|d rest IH]; intros k; simpl; [constructor|].
  destruct (0 <? max_output_channels d); [|apply IH].
  constructor; [apply IH|]. apply Forall_forall. intros [i n] Hin.
  apply elem_of_output_devices_from in Hin. simpl. lia.
Qed.

(** X1: [get_output_devices] lists exactly the devices with at least one
    output channel, each as the pair of its index in [sd.query_devices()]
    and its name, in increasing order of index. *)
Theorem get_output_devices_spec (query : list DeviceInfo) :
  (∀ i n, (i, n) ∈ get_output_devices query ↔
          0 ≤ i ∧ ∃ d, query !! Z.to_nat i = Some d ∧ dev_name d = n ∧
                       0 < max_output_channels d) ∧
  StronglySorted (λ p q : Z * pystr, fst p < fst q) (get_output_devices query).
Proof.
  split; [|apply output_devices_from_sorted].
  intros i n. unfold get_output_devices.
  rewrite elem_of_output_devices_from. by rewrite Z.sub_0_r.
Qed.

Lemma default_idx_fold (dd : Z) (l : list (Z * pystr)) (k : nat) (acc : Z) :
  let r := fold_left (λ acc p, if (fst (snd p) =? dd) then fst p else acc)
             (zip (List.map Z.of_nat (seq k (length l))) l) acc in
  (r = acc ∧ ∀ q, q ∈ l → fst q ≠ dd) ∨
  (∃ j q, l !! j = Some q ∧ fst q = dd ∧ r = Z.of_nat (k + j)).
Proof.
  revert k acc. induction l as [|p l IH]; intros k acc; simpl.
  - left. split; [done|]. by intros q ?%elem_of_nil.
  - destruct (IH (S k) (if fst p =? dd then Z.of_nat k else acc))
      as [[Hr Hnone]|(j & q & Hj & Hq & Hr)].
    + destruct (Z.eqb_spec (fst p) dd) as [Heq|Hne].
      * right. exists 0%nat, p. simpl. rewrite Nat.add_0_r. done.
      * left. split; [done|]. intros q [->|Hin]%elem_of_cons; auto.
    + right. exists (S j), q. simpl. split; [done|]. split; [done|].
      rewrite Hr. f_equal. lia.
Qed.

Lemma default_idx_spec devs dd :
  (default_idx devs dd = 0 ∧ ∀ q, q ∈ devs → fst q ≠ dd) ∨
  (∃ j q, devs !! j = Some q ∧ fst q = dd ∧ default_idx devs dd = Z.of_nat j).
Proof. apply (default_idx_fold dd devs 0 0). Qed.

Lemma fold_addItem_snd_items (devs : list (Z * pystr)) cb :
  items (fold_left (λ cb p, addItem (snd p) cb) devs cb) = items cb ++ List.map snd devs.
Proof.
  revert cb. induction devs as [|p devs IH]; intros cb; simpl.
  - by rewrite app_nil_r.
  - rewrite IH. simpl. by rewrite <- app_assoc.
Qed.

Lemma py_index_nat {A} (l : list A) (j : nat) x :
  l !! j = Some x → py_index l (Z.of_nat j) = Some x.
Proof.
  intros Hj. pose proof (lookup_lt_Some _ _ _ Hj) as Hlt. unfold py_index.
  assert ((0 <=? Z.of_nat j) && (Z.of_nat j <? Z.of_nat (length l)) = true) as ->
    by (apply andb_true_iff; split; [apply Z.leb_le|apply Z.ltb_lt]; lia).
  by rewrite Nat2Z.id.
Qed.

(** X2: when there is at least one output device, [__init__] leaves the
    device box on a valid entry, so that the lookup [self.devices[...]] of
    [_on_say] succeeds and the box shows that device's name. The entry is a
    device whose id is the default one when the list has such a device, and
    the first device of the list otherwise. *)
Theorem init_selects_device devs default_dev d :
  devs ≠ [] →
  ∃ p, py_index (devices (App_init devs default_dev d))
                (currentIndex (device_combo (App_init devs default_dev d))) = Some p ∧
       currentText (device_combo (App_init devs default_dev d)) = snd p ∧
       ((∃ q, q ∈ devs ∧ fst q = default_dev) → fst p = default_dev) ∧
       ((∀ q, q ∈ devs → fst q ≠ default_dev) → devs !! 0%nat = Some p).
Proof.
  intros Hne.
  assert (∃ j p, devs !! j = Some p ∧ default_idx devs default_dev = Z.of_nat j ∧
                 ((∃ q, q ∈ devs ∧ fst q = default_dev) → fst p = default_dev) ∧
                 ((∀ q, q ∈ devs → fst q ≠ default_dev) → j = 0%nat))
    as (j & p & Hj & Hidx & Hdef & Hfirst).
  { destruct (default_idx_spec devs default_dev) as [[H0 Hnone]|(j & q & Hj & Hq & Hidx)].
    - destruct devs as [|p devs]; [done|]. exists 0%nat, p.
      split; [done|]. split; [done|]. split; [|done].
      intros (q & Hin & Hq). by destruct (Hnone q Hin).
    - exists j, q. split; [done|]. split; [done|]. split; [done|].
      intros Hnone. destruct (Hnone q); [|done].
      by eapply list_elem_of_lookup_2. }
  pose proof (lookup_lt_Some _ _ _ Hj) as Hlt.
  exists p. cbn [App_init devices device_combo].
  unfold setCurrentIndex, currentText, count. cbn [items currentIndex].
  rewrite fold_addItem_snd_items. cbn [clear items]. rewrite app_nil_l.
  rewrite length_map, Hidx.
  assert ((0 <=? Z.of_nat j) && (Z.of_nat j <? Z.of_nat (length devs)) = true) as Hin
    by (apply andb_true_iff; split; [apply Z.leb_le|apply Z.ltb_lt]; lia).
  rewrite Hin. rewrite Hin, Nat2Z.id.
  split; [by apply py_index_nat|]. split.
  - apply nth_lookup_Some with (d := []). by rewrite list_lookup_fmap, Hj.
  - split; [done|]. intros Hnone. by rewrite <- (Hfirst Hnone).
Qed.

Lemma init_selects_device_witness :
  ∃ p, py_index (devices (App_init [(1, py "HDMI"); (3, py "Speakers")] 3 None))
         (currentIndex (device_combo (App_init [(1, py "HDMI"); (3, py "Speakers")] 3 None)))
       = Some p ∧
       currentText (device_combo (App_init [(1, py "HDMI"); (3, py "Speakers")] 3 None))
       = snd p ∧
       ((∃ q, q ∈ [(1, py "HDMI"); (3, py "Speakers")] ∧ fst q = 3) → fst p = 3) ∧
       ((∀ q, q ∈ [(1, py "HDMI"); (3, py "Speakers")] → fst q ≠ 3) →
        [(1, py "HDMI"); (3, py "Speakers")] !! 0%nat = Some p).
Proof.
  refine (init_selects_device [(1, py "HDMI"); (3, py "Speakers")] 3 None _).
  discriminate.
Defined.

(** X3: with no output device at all, a submission that gets past the
    text and button checks raises [IndexError] out of the slot: nothing is
    started and nothing is changed. *)
Theorem on_say_without_device (w : World) :
  devices (app w) = [] →
  strip (text_edit (app w)) ≠ [] →
  say_btn_enabled (app w) = true →
  _on_say w = (w, [], Exc IndexError).
Proof.
  destruct w as [a d]. cbn [app]. intros Hdev Htext Hsay.
  unfold _on_say. unfold_m. cbn -[py strip path_exists].
  destruct (strip (text_edit a)); [done|]. rewrite Hsay, Hdev.
  cbn -[py strip path_exists].
  unfold py_index. cbn [length].
  destruct ((0 <=? currentIndex (device_combo a)) && (currentIndex (device_combo a) <? Z.of_nat 0))
    eqn:H1; [apply andb_true_iff in H1 as [?%Z.leb_le ?%Z.ltb_lt]; lia|].
  destruct ((- Z.of_nat 0 <=? currentIndex (device_combo a)) && (currentIndex (device_combo a) <? 0))
    eqn:H2; [apply andb_true_iff in H2 as [?%Z.leb_le ?%Z.ltb_lt]; lia|].
  done.
Qed.

Lemma on_say_without_device_witness :
  _on_say (mkWorld (set_text_edit (py "hi") (set_say_btn_enabled true (App_init [] 0 None))) None)
  = (mkWorld (set_text_edit (py "hi") (set_say_btn_enabled true (App_init [] 0 None))) None,
     [], Exc IndexError).
Proof.
  refine (on_say_without_device
            (mkWorld (set_text_edit (py "hi") (set_say_btn_enabled true (App_init [] 0 None))) None)
            _ _ _).
  - reflexivity.
  - vm_compute. discriminate.
  - reflexivity.
Defined.

(** ** Transcript names *)

Lemma rfind_dot_from_app i (s t : pystr) :
  rfind_dot_from i (s ++ t) =
    match rfind_dot_from (i + length s) t with
    | Some j => Some j
    | None => rfind_dot_from i s
    end.
Proof.
  revert i. induction s as [|c s IH]; intros i; simpl.
  - rewrite Nat.add_0_r. by destruct (rfind_dot_from i t).
  - rewrite IH. replace (S i + length s)%nat with (i + S (length s))%nat by lia.
    by destruct (rfind_dot_from (i + S (length s)) t).
Qed.

Lemma with_suffix_wav (stem : pystr) :
  stem ≠ [] →
  with_suffix (stem ++ py ".wav") (py ".txt") = Some (stem ++ py ".txt").
Proof.
  intros Hstem. unfold with_suffix, path_name.
  rewrite bool_decide_eq_false_2.
  2: { intros Heq. apply (f_equal length) in Heq. rewrite length_app in Heq.
       destruct stem; [done|]. simpl in Heq. lia. }
  assert (path_suffix (stem ++ py ".wav") = py ".wav") as Hsuf.
  { unfold path_suffix, rfind_dot. rewrite rfind_dot_from_app.
    change (rfind_dot_from (0 + length stem) (py ".wav")) with (Some (0 + length stem)%nat).
    rewrite length_app. change (length (py ".wav")) with 4%nat.
    rewrite !bool_decide_eq_true_2 by (destruct stem; [done|simpl; lia]).
    simpl. apply drop_app_length. }
  rewrite Hsuf. destruct (stem ++ py ".wav") as [|c l] eqn:Hname.
  { by apply app_eq_nil in Hname as [? _]. }
  rewrite <- Hname. change (py ".wav") with [46; 119; 97; 118]%N at 1.
  cbn [length]. rewrite length_app. change (length (py ".wav")) with 4%nat.
  rewrite Nat.add_sub, take_app_length. done.
Qed.

(** X4: the transcript of a sample [stem.wav] with a non-empty stem is
    [stem.txt], the same base name; two such samples never share a
    transcript file. *)
Theorem transcript_name (stem stem' : pystr) :
  stem ≠ [] → stem' ≠ [] →
  with_suffix (stem ++ py ".wav") (py ".txt") = Some (stem ++ py ".txt") ∧
  (with_suffix (stem ++ py ".wav") (py ".txt") =
   with_suffix (stem' ++ py ".wav") (py ".txt") → stem = stem').
Proof.
  intros Hs Hs'. rewrite !with_suffix_wav by done. split; [done|].
  intros [= Heq]. by apply app_inv_tail in Heq.
Qed.

Lemma transcript_name_witness :
  with_suffix (py "20240101_120000" ++ py ".wav") (py ".txt")
    = Some (py "20240101_120000" ++ py ".txt") ∧
  (with_suffix (py "20240101_120000" ++ py ".wav") (py ".txt") =
   with_suffix (py "voice" ++ py ".wav") (py ".txt") → py "20240101_120000" = py "voice").
Proof.
  refine (transcript_name (py "20240101_120000") (py "voice") _ _); vm_compute; discriminate.
Defined.

(** ** The recorder's transcript and the record button *)

Lemma strftime_nonempty now : strftime_Ymd_HMS now ≠ [].
Proof. done. Qed.

(** X5: when [_stop_recording] persists a recording and the reference text
    is not empty once stripped, it also writes the stripped text to the
    sibling file with the same time stamp and the extension [.txt]; when the
    text is empty it writes no transcript. Every other entry of the
    directory is left as it was. *)
Theorem stop_recording_transcript platform_cast now chunks w :
  chunks ≠ [] →
  match strip (ref_text_edit (app w)) with
  | [] =>
      ∀ n, n ≠ strftime_Ymd_HMS now ++ py ".wav" →
        lookup_file (fs (world_after (capture_session platform_cast now chunks w))) n
          = lookup_file (fs w) n
  | c :: text =>
      lookup_file (fs (world_after (capture_session platform_cast now chunks w)))
                  (strftime_Ymd_HMS now ++ py ".txt") = Some (TextFile (c :: text)) ∧
      ∀ n, n ≠ strftime_Ymd_HMS now ++ py ".wav" →
           n ≠ strftime_Ymd_HMS now ++ py ".txt" →
        lookup_file (fs (world_after (capture_session platform_cast now chunks w))) n
          = lookup_file (fs w) n
  end.
Proof.
  intros Hne. unfold capture_session, bind at 1, bind at 1.
  pose proof (with_suffix_wav (strftime_Ymd_HMS now) (strftime_nonempty now)) as Htxt.
  destruct w as [a d].
  unfold _start_recording. unfold_m. cbn -[strip strftime_Ymd_HMS py to_int16 tobytes].
  rewrite callbacks_run. cbn -[strip strftime_Ymd_HMS py to_int16 tobytes].
  unfold _stop_recording. unfold_m. cbn -[strip strftime_Ymd_HMS py to_int16 tobytes].
  destruct chunks as [|c0 chunks]; [done|].
  cbn -[strip strftime_Ymd_HMS py to_int16 tobytes concat].
  rewrite Htxt.
  destruct (strip (ref_text_edit a)) as [|x t];
    cbn -[strip strftime_Ymd_HMS py to_int16 tobytes concat];
    destruct d as [d|]; cbn -[strip strftime_Ymd_HMS py to_int16 tobytes concat].
  - intros n Hn. by rewrite lookup_insert_ne.
  - intros n Hn. by rewrite lookup_insert_ne, lookup_empty.
  - rewrite lookup_insert_eq. split; [done|]. intros n Hn Hn'.
    by rewrite !lookup_insert_ne.
  - rewrite lookup_insert_eq. split; [done|]. intros n Hn Hn'.
    by rewrite !lookup_insert_ne, lookup_empty.
Qed.

Lemma stop_recording_transcript_witness :
  lookup_file
    (fs (world_after (capture_session cast_zero noon [[f32_quarter]]
                        (world_voice (py " hello ")))))
    (strftime_Ymd_HMS noon ++ py ".txt") = Some (TextFile (py "hello")).
Proof.
  refine (proj1 (stop_recording_transcript cast_zero noon [[f32_quarter]]
                   (world_voice (py " hello ")) _)).
  discriminate.
Defined.

Lemma bind_returns {A B} (c : M A) (k : A → M B) w a :
  how_ended (c w) = Ret a →
  how_ended (bind c k w) = how_ended (k a (world_after (c w))) ∧
  world_after (bind c k w) = world_after (k a (world_after (c w))).
Proof.
  unfold bind, how_ended, world_after. destruct (c w) as [[w1 t1] o]. simpl.
  intros ->. by destruct (k a w1) as [[w2 t2] o2].
Qed.

Lemma recorder_step_consistent platform_cast ev w :
  recorder_consistent w →
  stream_opens ev = true →
  how_ended (recorder_step platform_cast ev w) = Ret tt ∧
  recorder_consistent (world_after (recorder_step platform_cast ev w)).
Proof.
  unfold recorder_consistent. destruct w as [a d]. cbn [app]. intros Hinv Hopens.
  destruct ev as [now open_raises start_raises|indata]; cbn [recorder_step].
  - unfold _on_record_toggle. unfold_m. cbn -[py _start_recording _stop_recording].
    destruct (recording a) eqn:Hrec; cbn -[py _start_recording _stop_recording].
    + destruct (Hinv eq_refl) as [stream Hstream].
      pose proof (with_suffix_wav (strftime_Ymd_HMS now) (strftime_nonempty now)) as Htxt.
      unfold _stop_recording. unfold_m.
      cbn -[strip strftime_Ymd_HMS py to_int16 tobytes concat]. rewrite Hstream.
      cbn -[strip strftime_Ymd_HMS py to_int16 tobytes concat].
      destruct (recorded_frames a) as [|c chunks];
        cbn -[strip strftime_Ymd_HMS py to_int16 tobytes concat]; [done|].
      rewrite Htxt.
      by destruct (strip (ref_text_edit a));
        cbn -[strip strftime_Ymd_HMS py to_int16 tobytes concat].
    + by destruct open_raises, start_raises.
  - unfold callback. unfold_m. cbn. done.
Qed.

(** X6: starting from a state where a set [recording] flag comes with an
    existing stream (as after [__init__], where the flag is unset), and as
    long as the device lets every stream open and start, no sequence of
    clicks on the record button and of chunks delivered by the stream
    raises: [_stop_recording] is only reached with [input_stream] set, and
    the state stays consistent. *)
Theorem record_button_never_raises platform_cast evs w :
  recorder_consistent w →
  forallb stream_opens evs = true →
  how_ended (recorder_run platform_cast evs w) = Ret tt ∧
  recorder_consistent (world_after (recorder_run platform_cast evs w)).
Proof.
  revert w. induction evs as [|ev evs IH]; intros w Hinv Hopen; [done|].
  cbn [forallb] in Hopen. apply andb_true_iff in Hopen as [Hev Hevs].
  change (recorder_run platform_cast (ev :: evs))
    with (recorder_step platform_cast ev ;; recorder_run platform_cast evs).
  destruct (recorder_step_consistent platform_cast ev w Hinv Hev) as [Hret Hinv'].
  destruct (bind_returns (recorder_step platform_cast ev)
              (λ _, recorder_run platform_cast evs) w tt Hret) as [-> ->].
  by apply IH.
Qed.

Lemma record_button_never_raises_witness :
  how_ended (recorder_run cast_zero
               [ChunkArrives [f32_half]; RecordClicked noon None None;
                ChunkArrives [f32_quarter]; RecordClicked noon None None;
                RecordClicked noon None None; RecordClicked noon None None]
               (mkWorld (App_init speakers_device 0 None) None)) = Ret tt.
Proof.
  refine (proj1 (record_button_never_raises cast_zero _
                   (mkWorld (App_init speakers_device 0 None) None) _ _)).
  - intros H. vm_compute in H. discriminate.
  - reflexivity.
Defined.

(** X24: when the device refuses to open a stream and none was opened
    before, the click leaves the slot with the device's exception, the
    [recording] flag set and the button reading ["Stop"], but no
    [input_stream]; the next click, whatever the device would do then, goes
    to [_stop_recording], which raises [AttributeError] after clearing the
    flag: nothing is written and nothing signalled, and only the click
    after that starts a recording. *)
Theorem failed_open_costs_a_click platform_cast e start_raises o1 o2 now now' w :
  recording (app w) = false →
  input_stream (app w) = None →
  how_ended (_on_record_toggle (Some e) start_raises platform_cast now w) = Exc e ∧
  recording (app (world_after
    (_on_record_toggle (Some e) start_raises platform_cast now w))) = true ∧
  record_btn_text (app (world_after
    (_on_record_toggle (Some e) start_raises platform_cast now w))) = py "Stop" ∧
  input_stream (app (world_after
    (_on_record_toggle (Some e) start_raises platform_cast now w))) = None ∧
  _on_record_toggle o1 o2 platform_cast now'
    (world_after (_on_record_toggle (Some e) start_raises platform_cast now w)) =
    (mkWorld
       (set_record_btn_checked false
         (set_record_btn_text (py "Record")
           (set_recording false
             (app (world_after
                (_on_record_toggle (Some e) start_raises platform_cast now w))))))
       (fs w),
     [], Exc AttributeError_input_stream).
Proof.
  destruct w as [a d]. cbn [app]. intros Hrec Hstream.
  unfold _on_record_toggle, _start_recording, _stop_recording. unfold_m.
  cbn -[py strip strftime_Ymd_HMS to_int16 tobytes concat]. rewrite Hrec.
  cbn -[py strip strftime_Ymd_HMS to_int16 tobytes concat]. rewrite Hstream.
  done.
Qed.

Lemma failed_open_costs_a_click_witness :
  how_ended (recorder_run cast_zero
               [RecordClicked noon (Some (mkExn (py "PortAudioError")
                                            (py "Error opening InputStream") true)) None;
                RecordClicked noon None None]
               (mkWorld (App_init speakers_device 0 None) None)) =
    Exc (mkExn (py "PortAudioError") (py "Error opening InputStream") true) ∧
  how_ended (_on_record_toggle None None cast_zero noon
               (world_after
                  (_on_record_toggle
                     (Some (mkExn (py "PortAudioError") (py "Error opening InputStream") true))
                     None cast_zero noon
                     (mkWorld (App_init speakers_device 0 None) None)))) =
    Exc AttributeError_input_stream.
Proof.
  split; [vm_compute; reflexivity|].
  pose proof (failed_open_costs_a_click cast_zero
                (mkExn (py "PortAudioError") (py "Error opening InputStream") true)
                None None None noon noon
                (mkWorld (App_init speakers_device 0 None) None)
                eq_refl eq_refl) as (_ & _ & _ & _ & H).
  by rewrite H.
Defined.

(** ** The sample box *)

Lemma fold_addItem_index l cb :
  currentIndex (fold_left (λ cb s, addItem s cb) l cb) =
    match items cb, l with
    | [], _ :: _ => 0
    | _, _ => currentIndex cb
    end.
Proof.
  revert cb. induction l as [|s l IH]; intros cb; simpl.
  - by destruct (items cb).
  - rewrite IH. simpl. destruct (items cb); simpl; by destruct l.
Qed.

(** What [_populate_samples] leaves in the box. *)
Lemma populate_samples_box w :
  how_ended (_populate_samples w) = Ret tt ∧
  fs (world_after (_populate_samples w)) = fs w ∧
  items (sample_combo (app (world_after (_populate_samples w)))) =
    match list_samples (fs w) with [] => [no_samples_item] | l => l end ∧
  currentIndex (sample_combo (app (world_after (_populate_samples w)))) = 0.
Proof.
  destruct w as [a d]. unfold _populate_samples. unfold_m. cbn -[py list_samples no_samples_item].
  destruct (list_samples d) as [|s l]; cbn -[py list_samples no_samples_item]; [done|].
  rewrite fold_addItem_items, fold_addItem_index. done.
Qed.

Lemma refresh_samples_box w :
  list_samples (fs w) ≠ [] →
  fs (world_after (_refresh_samples w)) = fs w ∧
  items (sample_combo (app (world_after (_refresh_samples w)))) = list_samples (fs w).
Proof.
  intros Hne. destruct w as [a d]. cbn [fs] in *.
  unfold _refresh_samples, _populate_samples. unfold_m.
  cbn -[py list_samples no_samples_item].
  destruct (list_samples d) as [|s l]; [done|]. cbn -[py list_samples no_samples_item].
  by rewrite fold_addItem_items.
Qed.

(** X7: after a recording is saved and its [recording_saved] signal has
    reached [_refresh_samples], the sample box holds exactly the sorted
    samples of the directory, the new recording among them; the placeholder
    item is gone. *)
Theorem new_recording_is_listed platform_cast now chunks w :
  chunks ≠ [] →
  items (sample_combo (app
    (deliver (trace (capture_session platform_cast now chunks w))
             (world_after (capture_session platform_cast now chunks w))))) =
    list_samples (fs (world_after (capture_session platform_cast now chunks w))) ∧
  strftime_Ymd_HMS now ++ py ".wav" ∈
    items (sample_combo (app
      (deliver (trace (capture_session platform_cast now chunks w))
               (world_after (capture_session platform_cast now chunks w))))) ∧
  no_samples_item ∉
    items (sample_combo (app
      (deliver (trace (capture_session platform_cast now chunks w))
               (world_after (capture_session platform_cast now chunks w))))).
Proof.
  intros Hne.
  destruct (capture_session_nonempty platform_cast now chunks w Hne)
    as (_ & Htrace & _ & Hfile & _).
  rewrite Htrace. cbn [deliver fold_left slot].
  set (w1 := world_after (capture_session platform_cast now chunks w)) in *.
  assert (strftime_Ymd_HMS now ++ py ".wav" ∈ list_samples (fs w1)) as Hin.
  { apply elem_of_list_samples. split; [by rewrite Hfile|apply endswith_app]. }
  assert (list_samples (fs w1) ≠ []) as Hlist.
  { intros Hnil. rewrite Hnil in Hin. by apply elem_of_nil in Hin. }
  destruct (refresh_samples_box w1 Hlist) as [_ ->].
  split; [done|]. split; [done|].
  intros [_ Hwav]%elem_of_list_samples. by vm_compute in Hwav.
Qed.

Lemma new_recording_is_listed_witness :
  strftime_Ymd_HMS noon ++ py ".wav" ∈
    items (sample_combo (app
      (deliver (trace (capture_session cast_zero noon [[f32_quarter]]
                         (mkWorld (App_init speakers_device 0 None) None)))
               (world_after (capture_session cast_zero noon [[f32_quarter]]
                               (mkWorld (App_init speakers_device 0 None) None)))))).
Proof.
  refine (proj1 (proj2 (new_recording_is_listed cast_zero noon [[f32_quarter]]
                          (mkWorld (App_init speakers_device 0 None) None) _))).
  discriminate.
Defined.

Lemma no_samples_item_txt :
  with_suffix no_samples_item (py ".txt") = Some (no_samples_item ++ py ".txt").
Proof. by vm_compute. Qed.

(** X8: once [_populate_samples] has filled the sample box, the box is
    never empty and its first item is current, and [_save_ref_text] returns
    without raising whatever the directory holds and whatever the line edit
    holds: the name it builds the transcript path from is never empty. *)
Theorem save_ref_text_after_populate w :
  items (sample_combo (app (world_after (_populate_samples w)))) ≠ [] ∧
  head (items (sample_combo (app (world_after (_populate_samples w))))) =
    Some (currentText (sample_combo (app (world_after (_populate_samples w))))) ∧
  how_ended (_save_ref_text (world_after (_populate_samples w))) = Ret tt.
Proof.
  destruct (populate_samples_box w) as (_ & Hfs & Hitems & Hidx).
  set (w1 := world_after (_populate_samples w)) in *.
  assert (∃ s l, items (sample_combo (app w1)) = s :: l ∧
                 is_Some (with_suffix s (py ".txt"))) as (s & l & Hsl & Hsuf).
  { rewrite Hitems. destruct (list_samples (fs w)) as [|s l] eqn:Hlist.
    - exists no_samples_item, []. split; [done|]. rewrite no_samples_item_txt. eauto.
    - exists s, l. split; [done|]. apply wav_with_suffix.
      assert (s ∈ list_samples (fs w)) as Hin by (rewrite Hlist; left).
      by apply elem_of_list_samples in Hin as [_ ?]. }
  assert (currentText (sample_combo (app w1)) = s) as Hcur.
  { unfold currentText, count. rewrite Hidx, Hsl. done. }
  rewrite Hcur, Hsl. split; [done|]. split; [done|].
  destruct Hsuf as [txt Htxt]. destruct w1 as [a d]. cbn [app] in *.
  unfold _save_ref_text. unfold_m. cbn -[py strip].
  rewrite Hcur, Htxt. cbn -[py strip].
  destruct (strip (ref_text_edit a)); [done|]. by destruct (dir_exists d).
Qed.

(** X9: with an existing directory that holds no sample, the box shows the
    placeholder item, and [_save_ref_text] with a reference text that is
    not empty once stripped writes that text to a file named after the
    placeholder. *)
Theorem save_ref_text_placeholder_file w entries :
  fs w = Some entries →
  list_samples (fs w) = [] →
  strip (ref_text_edit (app w)) ≠ [] →
  currentText (sample_combo (app (world_after (_populate_samples w)))) = no_samples_item ∧
  lookup_file (fs (world_after (_save_ref_text (world_after (_populate_samples w)))))
              (no_samples_item ++ py ".txt") =
    Some (TextFile (strip (ref_text_edit (app w)))).
Proof.
  intros Hdir Hnone Htext. destruct w as [a d]. cbn [app fs] in *. subst d.
  unfold _populate_samples. unfold_m. cbn -[py list_samples no_samples_item strip].
  rewrite Hnone. cbn -[py list_samples no_samples_item strip].
  assert (currentText (addItem no_samples_item (clear (sample_combo a))) = no_samples_item)
    as Hcur by done.
  split; [done|].
  unfold _save_ref_text. unfold_m. cbn -[py list_samples no_samples_item strip currentText addItem].
  rewrite Hcur, no_samples_item_txt.
  cbn -[py list_samples no_samples_item strip currentText addItem].
  destruct (strip (ref_text_edit a)); [done|].
  cbn -[py list_samples no_samples_item strip currentText addItem].
  by rewrite lookup_insert_eq.
Qed.

Lemma save_ref_text_placeholder_file_witness :
  lookup_file
    (fs (world_after (_save_ref_text (world_after (_populate_samples
       (mkWorld (set_ref_text_edit (py "hello") (App_init speakers_device 0 (Some ∅)))
                (Some ∅)))))))
    (no_samples_item ++ py ".txt") = Some (TextFile (py "hello")).
Proof.
  refine (proj2 (save_ref_text_placeholder_file
            (mkWorld (set_ref_text_edit (py "hello") (App_init speakers_device 0 (Some ∅)))
                     (Some ∅)) ∅ _ _ _)).
  - reflexivity.
  - reflexivity.
  - vm_compute. discriminate.
Defined.

(** ** More on the generation worker *)


(** X12: when the synthesis ends without yielding any segment, nothing is
    played: after the synthesis call the worker emits the error status of
    the failed concatenation and [done]. *)
Theorem generate_without_segments sd g w model :
  models (app w) !! ga_mode g = Some model →
  snd (synthesize model g) = mkResults [] None →
  trace (_generate sd g w) =
    [fst (synthesize model g);
     EmitStatus (py "Error: " ++ exn_str ValueError_concatenate);
     EmitDone].
Proof.
  destruct w as [a d]. cbn [app]. intros Hmodel Hres.
  unfold _generate, _generate_try. unfold_m. cbn -[py]. rewrite Hmodel.
  destruct (synthesize model g) as [ev results]. cbn [snd] in Hres. by subst results.
Qed.

Lemma generate_without_segments_witness :
  trace (_generate quiet_device hello_request
           (world_loaded (model_yielding (mkResults [] None)))) =
    [fst (synthesize (model_yielding (mkResults [] None)) hello_request);
     EmitStatus (py "Error: " ++ exn_str ValueError_concatenate);
     EmitDone].
Proof.
  refine (generate_without_segments quiet_device hello_request
            (world_loaded (model_yielding (mkResults [] None)))
            (model_yielding (mkResults [] None)) _ _).
  - vm_compute. reflexivity.
  - reflexivity.
Defined.

(** X13: once the signals of a worker have reached their slots, the say
    button is enabled again and the status label reads ["Ready"], whether
    the generation succeeded or failed with an exception of class
    [Exception]: the slot of [done] runs last and overwrites the error text
    that the status signal had set. Nothing else of the application has
    changed. When an exception of another class ends the worker, [done] never
    arrives: the button is left as it was, and of the application only the
    status label may differ, reading ["Playing..."] if the exception came
    from the playback. *)
Theorem worker_signals_leave_ready sd g w :
  match first_raised sd g w with
  | Some e =>
      if is_Exception e
      then deliver (trace (_generate sd g w)) (world_after (_generate sd g w)) =
             mkWorld (set_status_label (py "Ready") (set_say_btn_enabled true (app w)))
                     (fs w)
      else ∃ status,
             (status = status_label (app w) ∨ status = py "Playing...") ∧
             deliver (trace (_generate sd g w)) (world_after (_generate sd g w)) =
               mkWorld (set_status_label status (app w)) (fs w)
  | None =>
      deliver (trace (_generate sd g w)) (world_after (_generate sd g w)) =
        mkWorld (set_status_label (py "Ready") (set_say_btn_enabled true (app w))) (fs w)
  end.
Proof.
  rewrite generate_world. destruct w as [a d].
  unfold first_raised, _generate, _generate_try. unfold_m. cbn -[py].
  destruct (models a !! ga_mode g) as [model|]; [|by destruct a].
  assert (slot (fst (synthesize model g)) = ret tt) as Hslot.
  { unfold synthesize. by destruct (ga_mode g). }
  destruct (synthesize model g) as [ev results]. cbn [fst snd] in *.
  destruct results as [segments [e|]]; cbn -[py].
  { destruct (is_Exception e); cbn -[py]; rewrite ?Hslot; [by destruct a|].
    exists (status_label a). split; [by left|]. by destruct a. }
  destruct segments as [|first rest]; cbn -[py]; rewrite ?Hslot; [by destruct a|].
  destruct (play_raises sd _ _ _) as [e|]; cbn -[py]; rewrite ?Hslot.
  { destruct (is_Exception e); cbn -[py]; rewrite ?Hslot; [by destruct a|].
    exists (py "Playing..."). split; [by right|]. by destruct a. }
  destruct (wait_raises sd) as [e|]; cbn -[py]; rewrite ?Hslot; [|by destruct a].
  destruct (is_Exception e); cbn -[py]; rewrite ?Hslot; [by destruct a|].
  exists (py "Playing..."). split; [by right|]. by destruct a.
Qed.

(** ** Loading a model *)

(** X14: when the user picks a mode that is not cached and [load_model]
    raises in the loader thread, the exception leaves the thread and no
    signal is emitted: the cache is as it was, the say button stays
    disabled, and the status label keeps reading ["Loading ... model..."];
    no error text is ever shown. *)
Theorem failed_load_is_silent w m e :
  models (app w) !! m = None →
  how_ended (_load_model (λ _, Exc e) m (world_after (_on_mode_changed m w))) = Exc e ∧
  trace (_load_model (λ _, Exc e) m (world_after (_on_mode_changed m w))) =
    [CallLoadModel (MODELS m)] ∧
  deliver (trace (_load_model (λ _, Exc e) m (world_after (_on_mode_changed m w))))
          (world_after (_load_model (λ _, Exc e) m (world_after (_on_mode_changed m w))))
    = world_after (_on_mode_changed m w) ∧
  models (app (world_after (_on_mode_changed m w))) = models (app w) ∧
  say_btn_enabled (app (world_after (_on_mode_changed m w))) = false ∧
  status_label (app (world_after (_on_mode_changed m w))) =
    py "Loading " ++ mode_name m ++ py " model...".
Proof.
  destruct w as [a d]. cbn [app]. intros Hnone.
  unfold _on_mode_changed, _load_model. unfold_m. cbn -[py MODELS mode_name].
  rewrite Hnone. cbn -[py MODELS mode_name]. done.
Qed.

Lemma failed_load_is_silent_witness :
  status_label (app (world_after (_on_mode_changed VoiceDesign
                   (world_ready (model_yielding two_rates) (py "hi"))))) =
    py "Loading " ++ mode_name VoiceDesign ++ py " model...".
Proof.
  refine (proj2 (proj2 (proj2 (proj2 (proj2
            (failed_load_is_silent (world_ready (model_yielding two_rates) (py "hi"))
               VoiceDesign (mkExn (py "OSError") (py "no such file") true) _)))))).
  vm_compute. reflexivity.
Defined.

(** X15: when the user picks a mode and its loader thread gets a model
    from [load_model], then once [model_ready] has reached its slot the
    cache holds that model for the mode, the mode is the current one, the
    say button is enabled and the status reads ["Ready"]. The voice box is
    refilled with the model's speakers for [CustomVoice] and is left alone
    for the other modes. *)
Theorem successful_load_enables_mode load_model w m model :
  load_model (MODELS m) = Ret model →
  how_ended (_load_model load_model m (world_after (_on_mode_changed m w))) = Ret tt ∧
  models (app (deliver
    (trace (_load_model load_model m (world_after (_on_mode_changed m w))))
    (world_after (_load_model load_model m (world_after (_on_mode_changed m w))))))
    !! m = Some model ∧
  current_mode (app (deliver
    (trace (_load_model load_model m (world_after (_on_mode_changed m w))))
    (world_after (_load_model load_model m (world_after (_on_mode_changed m w))))))
    = m ∧
  say_btn_enabled (app (deliver
    (trace (_load_model load_model m (world_after (_on_mode_changed m w))))
    (world_after (_load_model load_model m (world_after (_on_mode_changed m w))))))
    = true ∧
  status_label (app (deliver
    (trace (_load_model load_model m (world_after (_on_mode_changed m w))))
    (world_after (_load_model load_model m (world_after (_on_mode_changed m w))))))
    = py "Ready" ∧
  items (voice_combo (app (deliver
    (trace (_load_model load_model m (world_after (_on_mode_changed m w))))
    (world_after (_load_model load_model m (world_after (_on_mode_changed m w)))))))
    = match m with
      | CustomVoice => get_supported_speakers model
      | _ => items (voice_combo (app w))
      end.
Proof.
  destruct w as [a d]. intros Hload.
  unfold _on_mode_changed, _load_model. unfold_m. cbn -[py MODELS mode_name].
  destruct (models a !! m); cbn -[py MODELS mode_name]; rewrite Hload;
    cbn -[py MODELS mode_name]; unfold _on_model_ready; unfold_m;
    destruct m; cbn -[py MODELS mode_name];
    rewrite ?lookup_insert_eq, ?fold_addItem_items; done.
Qed.

Lemma successful_load_enables_mode_witness :
  how_ended (_load_model (λ _, Ret (model_yielding two_rates)) VoiceDesign
               (world_after (_on_mode_changed VoiceDesign
                  (mkWorld (App_init speakers_device 0 None) None)))) = Ret tt.
Proof.
  refine (proj1 (successful_load_enables_mode (λ _, Ret (model_yielding two_rates))
                   (mkWorld (App_init speakers_device 0 None) None) VoiceDesign
                   (model_yielding two_rates) _)).
  reflexivity.
Defined.

(** One step either leaves the cache as it is or adds the model of one
    mode to it, after a call of [load_model] for that mode. *)
Lemma step_cache sd s st :
  ∃ tr, log (step sd s st) = log s ++ tr ∧
    (models (app (world (step sd s st))) = models (app (world s)) ∨
     ∃ m model,
       models (app (world (step sd s st))) = <[m := model]> (models (app (world s))) ∧
       CallLoadModel (MODELS m) ∈ tr).
Proof.
  destruct s as [w ths lg]. destruct st as [text|m| |m loaded|g];
    cbn [step world threads log]; unfold exec; cbn [world threads log].
  - eexists. split; [done|]. left. by destruct w.
  - eexists. split; [done|]. left.
    rewrite deliver_models. apply on_mode_changed_effects.
  - eexists. split; [done|]. left.
    rewrite deliver_models. apply on_say_effects.
  - case_bool_decide; cbn [world threads log].
    2: { exists []. rewrite app_nil_r. auto. }
    eexists. split; [done|]. rewrite deliver_models.
    destruct w as [a d]. unfold _load_model. unfold_m. cbn -[py MODELS].
    destruct loaded as [model|e]; cbn -[py MODELS]; [|by left].
    right. exists m, model. split; [done|]. left.
  - case_bool_decide; cbn [world threads log].
    2: { exists []. rewrite app_nil_r. auto. }
    eexists. split; [done|]. left. by rewrite deliver_models, generate_world.
Qed.

(** X16: along every run of the application the cache only grows: a mode
    that is cached stays cached; and a mode is cached only after a call of
    [load_model] for it, so that from the state [__init__] leaves every
    cached mode has such a call in the log. *)
Theorem cache_grows_only_by_loading sd steps :
  (∀ s m, is_Some (models (app (world s)) !! m) →
          is_Some (models (app (world (run sd steps s))) !! m)) ∧
  (∀ s, (∀ m, is_Some (models (app (world s)) !! m) → CallLoadModel (MODELS m) ∈ log s) →
        ∀ m, is_Some (models (app (world (run sd steps s))) !! m) →
             CallLoadModel (MODELS m) ∈ log (run sd steps s)) ∧
  (∀ devs default_dev d m,
     is_Some (models (app (world (run sd steps (System_init devs default_dev d)))) !! m) →
     CallLoadModel (MODELS m) ∈ log (run sd steps (System_init devs default_dev d))).
Proof.
  assert (∀ s, (∀ m, is_Some (models (app (world s)) !! m) →
                     CallLoadModel (MODELS m) ∈ log s) →
          ∀ m, is_Some (models (app (world (run sd steps s))) !! m) →
               CallLoadModel (MODELS m) ∈ log (run sd steps s)) as Hlogged.
  { induction steps as [|st steps IH]; intros s Hinv; [done|].
    cbn [run fold_left]. apply IH. intros m Hm.
    destruct (step_cache sd s st) as (tr & -> & [Heq|(m' & model & Heq & Hin)]).
    - rewrite Heq in Hm. apply elem_of_app. left. by apply Hinv.
    - rewrite Heq in Hm. apply elem_of_app.
      destruct (decide (m' = m)) as [->|Hne]; [by right|].
      rewrite lookup_insert_ne in Hm by done. left. by apply Hinv. }
  split_and!; [|done|].
  - clear Hlogged. induction steps as [|st steps IH]; intros s m Hm; [done|].
    cbn [run fold_left]. apply IH.
    destruct (step_cache sd s st) as (tr & _ & [->|(m' & model & -> & _)]); [done|].
    destruct (decide (m' = m)) as [->|Hne].
    + rewrite lookup_insert_eq. eauto.
    + by rewrite lookup_insert_ne.
  - intros devs default_dev d. apply Hlogged. intros m [? Hm]. cbn in Hm.
    by rewrite lookup_empty in Hm.
Qed.

(** ** The say button while a generation is in flight *)

(** X17: the say button does not keep generations apart. An accepted
    submission disables the button and starts a worker; if a [model_ready]
    signal arrives before that worker's [done], its slot enables the button
    again, and the next submission starts a second worker while the first
    is still running. *)
Theorem model_ready_reenables_say w m voices dev device_name :
  say_btn_enabled (app w) = true →
  strip (text_edit (app w)) ≠ [] →
  current_mode (app w) ≠ VoiceClone →
  py_index (devices (app w)) (currentIndex (device_combo (app w))) = Some (dev, device_name) →
  (∃ g, trace (_on_say w) = [StartThread (GenerateThread g)]) ∧
  say_btn_enabled (app (world_after (_on_say w))) = false ∧
  trace (_on_model_ready m voices (world_after (_on_say w))) = [] ∧
  say_btn_enabled (app (world_after (_on_model_ready m voices (world_after (_on_say w)))))
    = true ∧
  (∃ g', trace (_on_say (world_after (_on_model_ready m voices (world_after (_on_say w)))))
         = [StartThread (GenerateThread g')]).
Proof.
  destruct w as [a d]. cbn [app]. intros Hsay Htext Hmode Hdev.
  unfold _on_say, _on_model_ready. unfold_m. cbn -[py strip path_exists].
  destruct (strip (text_edit a)) as [|c text] eqn:Htext'; [done|].
  rewrite Hsay, Hdev. cbn -[py strip path_exists].
  destruct (current_mode a) eqn:Hcur; [| |done];
    cbn -[py strip path_exists];
    (split; [eauto|]); (split; [done|]);
    destruct m; cbn -[py strip path_exists];
    rewrite ?Htext', ?Hdev, ?Hcur; cbn -[py strip path_exists]; eauto.
Qed.

Lemma model_ready_reenables_say_witness :
  ∃ g', trace (_on_say (world_after (_on_model_ready VoiceDesign []
                 (world_after (_on_say (world_ready (model_yielding two_rates) (py "hi")))))))
        = [StartThread (GenerateThread g')].
Proof.
  refine (proj2 (proj2 (proj2 (proj2
    (model_ready_reenables_say (world_ready (model_yielding two_rates) (py "hi"))
       VoiceDesign [] 0 (py "Speakers") _ _ _ _))))).
  - reflexivity.
  - vm_compute. discriminate.
  - vm_compute. discriminate.
  - vm_compute. reflexivity.
Defined.

(** ** Presets *)

Lemma on_preset_buttons name prompt (buttons : preset_buttons) a :
  fst (_on_preset name prompt buttons a) =
    List.map (λ b : pystr * bool,
                if bool_decide (fst b ≠ name) then (fst b, false) else b) buttons.
Proof.
  unfold _on_preset. destruct (List.find _ _) as [[n c]|]; [|done]. by destruct c.
Qed.

Lemma find_unchecked_others name (buttons : preset_buttons) :
  List.find (λ b : pystr * bool, bool_decide (fst b = name))
    (List.map (λ b : pystr * bool,
                 if bool_decide (fst b ≠ name) then (fst b, false) else b) buttons) =
  List.find (λ b : pystr * bool, bool_decide (fst b = name)) buttons.
Proof.
  induction buttons as [|[n c] buttons IH]; [done|]. simpl.
  destruct (decide (n = name)) as [->|Hne].
  - rewrite (bool_decide_eq_false_2 (name ≠ name)) by (intros H; by apply H).
    simpl. by rewrite bool_decide_eq_true_2.
  - rewrite (bool_decide_eq_true_2 (n ≠ name)) by done. simpl.
    by rewrite (bool_decide_eq_false_2 (n = name)).
Qed.

Lemma find_named name c (buttons : preset_buttons) :
  NoDup (List.map fst buttons) → (name, c) ∈ buttons →
  List.find (λ b : pystr * bool, bool_decide (fst b = name)) buttons = Some (name, c).
Proof.
  induction buttons as [|[n c'] buttons IH]; [by intros _ ?%elem_of_nil|].
  simpl. intros [Hn Hnodup]%NoDup_cons [[= -> ->]|Hin]%elem_of_cons.
  - by rewrite bool_decide_eq_true_2.
  - rewrite bool_decide_eq_false_2; [by apply IH|]. intros ->.
    apply Hn. apply list_elem_of_In. apply (list_elem_of_fmap_2 fst) in Hin. done.
Qed.

(** X18: [_on_preset] keeps the buttons and their order, and leaves no
    button checked but, possibly, the clicked one: a button that is checked
    afterwards bears the clicked name and was checked before. With buttons
    of distinct names, of which the clicked one is checked or not, it
    returns with the instruction box holding the prompt when the clicked
    button is checked and emptied when it is not; nothing else of the
    application changes. *)
Theorem on_preset_exclusive name prompt (buttons : preset_buttons) a c :
  NoDup (List.map fst buttons) →
  (name, c) ∈ buttons →
  List.map fst (fst (_on_preset name prompt buttons a)) = List.map fst buttons ∧
  (∀ n c', (n, c') ∈ fst (_on_preset name prompt buttons a) → c' = true →
           n = name ∧ c = true) ∧
  snd (_on_preset name prompt buttons a) =
    Ret (set_instruct_edit (if c then prompt else []) a).
Proof.
  intros Hnodup Hin. rewrite on_preset_buttons. split_and!.
  - rewrite List.map_map. apply List.map_ext. intros [n c']. simpl.
    by destruct (bool_decide (n ≠ name)).
  - intros n c' ([n0 c0] & Heq & Hin0)%list_elem_of_fmap ->. simpl in Heq.
    destruct (decide (n0 = name)) as [->|Hne].
    + rewrite bool_decide_eq_false_2 in Heq by (intros H; by apply H).
      pose proof (find_named name c buttons Hnodup Hin) as H1.
      pose proof (find_named name c0 buttons Hnodup Hin0) as H2.
      split; congruence.
    + rewrite bool_decide_eq_true_2 in Heq by done. discriminate.
  - unfold _on_preset. rewrite find_unchecked_others, (find_named name c) by done.
    by destruct c.
Qed.

Lemma on_preset_exclusive_witness :
  snd (_on_preset (py "Sad") (py "Sad and melancholic.")
         [(py "Happy", true); (py "Sad", true); (py "Angry", false)]
         (App_init speakers_device 0 None)) =
    Ret (set_instruct_edit (py "Sad and melancholic.") (App_init speakers_device 0 None)).
Proof.
  refine (proj2 (proj2 (on_preset_exclusive (py "Sad") (py "Sad and melancholic.")
            [(py "Happy", true); (py "Sad", true); (py "Angry", false)]
            (App_init speakers_device 0 None) true _ _))).
  - apply (bool_decide_unpack _). vm_compute. exact I.
  - apply (bool_decide_unpack _). vm_compute. exact I.
Defined.

Lemma presets_existsb (text : pystr) :
  existsb (λ p : pystr * pystr, bool_decide (text = snd p)) PRESETS = true ↔
  text ∈ List.map snd PRESETS.
Proof.
  rewrite existsb_exists. split.
  - intros ([n p] & Hin & Heq%bool_decide_eq_true). simpl in Heq. subst.
    apply list_elem_of_In. apply in_map_iff. by exists (n, p).
  - intros ([n p] & Heq & Hin)%list_elem_of_In%in_map_iff. simpl in Heq. subst.
    exists (n, text). split; [done|]. by apply bool_decide_eq_true.
Qed.

(** X19: [_on_instruct_edited] unchecks every preset button when the text
    of the instruction box is not the prompt of a preset, and leaves the
    buttons as they are when the text is the prompt of any preset, be it
    the preset of the checked button or of another one. *)
Theorem on_instruct_edited_spec (buttons : preset_buttons) a :
  (instruct_edit a ∈ List.map snd PRESETS → _on_instruct_edited buttons a = buttons) ∧
  (instruct_edit a ∉ List.map snd PRESETS →
   _on_instruct_edited buttons a = List.map (λ b : pystr * bool, (fst b, false)) buttons).
Proof.
  unfold _on_instruct_edited. split; intros Htext.
  - apply presets_existsb in Htext. rewrite Htext. simpl.
    rewrite <- (List.map_id buttons) at 2. apply List.map_ext. intros [n c]. simpl.
    by destruct c.
  - assert (existsb (λ p : pystr * pystr, bool_decide (instruct_edit a = snd p)) PRESETS
            = false) as ->.
    { apply not_true_is_false. by rewrite presets_existsb. }
    simpl. apply List.map_ext. intros [n c]. simpl. by destruct c.
Qed.

(** X20: the edit that [_on_preset] makes for a preset of [PRESETS] does
    not undo the click: with buttons of distinct names, running
    [_on_instruct_edited] on the text [_on_preset] has just set leaves the
    buttons exactly as [_on_preset] left them. *)
Theorem preset_click_survives_edit (name prompt : pystr) (buttons : preset_buttons)
    (a : App) (c : bool) :
  (name, prompt) ∈ PRESETS →
  NoDup (List.map fst buttons) →
  (name, c) ∈ buttons →
  _on_instruct_edited (fst (_on_preset name prompt buttons a))
    (set_instruct_edit (if c then prompt else []) a) =
  fst (_on_preset name prompt buttons a).
Proof.
  intros Hpreset Hnodup Hin.
  destruct (on_preset_exclusive name prompt buttons a c Hnodup Hin) as (_ & Hchecked & _).
  destruct c.
  - apply on_instruct_edited_spec. cbn [instruct_edit set_instruct_edit].
    apply list_elem_of_In, in_map_iff. exists (name, prompt).
    split; [done|]. by apply list_elem_of_In.
  - rewrite (proj2 (on_instruct_edited_spec _ _)).
    2: { cbn [instruct_edit set_instruct_edit]. intros H.
         apply (bool_decide_pack _) in H. by vm_compute in H. }
    rewrite <- (List.map_id (fst (_on_preset name prompt buttons a))) at 2.
    apply List.map_ext_in. intros [n c'] Hin'. simpl.
    destruct c'; [|done].
    apply list_elem_of_In in Hin'. by destruct (Hchecked n true Hin' eq_refl).
Qed.

Lemma preset_click_survives_edit_witness :
  _on_instruct_edited
    (fst (_on_preset (py "Calm") (py "Calm and soothing.")
            [(py "Happy", true); (py "Calm", true)] (App_init speakers_device 0 None)))
    (set_instruct_edit (if true then py "Calm and soothing." else [])
       (App_init speakers_device 0 None)) =
  fst (_on_preset (py "Calm") (py "Calm and soothing.")
         [(py "Happy", true); (py "Calm", true)] (App_init speakers_device 0 None)).
Proof.
  refine (preset_click_survives_edit (py "Calm") (py "Calm and soothing.")
            [(py "Happy", true); (py "Calm", true)] (App_init speakers_device 0 None)
            true _ _ _).
  - apply (bool_decide_unpack _). vm_compute. exact I.
  - apply (bool_decide_unpack _). vm_compute. exact I.
  - apply (bool_decide_unpack _). vm_compute. exact I.
Defined.

(** ** Listing and naming recordings *)

Lemma list_samples_NoDup fs : NoDup (list_samples fs).
Proof.
  destruct fs as [d|]; simpl; [|constructor].
  rewrite merge_sort_Permutation. unfold glob_wav.
  apply NoDup_filter, NoDup_fst_map_to_list.
Qed.

(** X21: [list_samples] is in lexicographic order and names no sample
    twice; after [_refresh_samples] on a directory with at least one
    sample, the selected item is the last entry of that list, and every
    listed name is less than or equal to it. *)
Theorem refresh_samples_selects_greatest w :
  Sorted str_le (list_samples (fs w)) ∧
  NoDup (list_samples (fs w)) ∧
  (list_samples (fs w) ≠ [] →
   last (list_samples (fs w)) =
     Some (currentText (sample_combo (app (world_after (_refresh_samples w))))) ∧
   ∀ n, n ∈ list_samples (fs w) →
        str_le n (currentText (sample_combo (app (world_after (_refresh_samples w)))))).
Proof.
  split; [apply list_samples_Sorted|]. split; [apply list_samples_NoDup|].
  intros Hne. pose proof (refresh_samples_selects_last w Hne) as Hlast.
  split; [done|]. intros n Hin.
  apply last_Some in Hlast as [l' Hl'].
  pose proof (list_samples_Sorted (fs w)) as Hsorted.
  apply Sorted_StronglySorted in Hsorted; [|apply _].
  rewrite Hl' in Hsorted, Hin. apply elem_of_app in Hin as [Hin|Hin].
  - eapply StronglySorted_app_1_elem_of; [done..|]. left.
  - apply list_elem_of_singleton in Hin as ->. apply str_leb_refl.
Qed.

Lemma pad2_inj n n' : 0 ≤ n ≤ 99 → 0 ≤ n' ≤ 99 → pad2 n = pad2 n' → n = n'.
Proof.
  intros Hn Hn' Heq. pose proof (decimal_pad2 n Hn) as H1.
  pose proof (decimal_pad2 n' Hn') as H2. congruence.
Qed.

Lemma pad4_inj n n' : 0 ≤ n ≤ 9999 → 0 ≤ n' ≤ 9999 → pad4 n = pad4 n' → n = n'.
Proof.
  intros Hn Hn' Heq. pose proof (decimal_pad4 n Hn) as H1.
  pose proof (decimal_pad4 n' Hn') as H2. congruence.
Qed.

(** X22: the file name of a recording spells the six wall-clock fields of
    the time of the stop and nothing else: two valid times give the same
    name exactly when they agree on year, month, day, hour, minute and
    second. [fold] is not spelled: the same wall-clock second of the two
    passes through a repeated hour gives one name, and a recording saved
    under a name already used replaces the earlier one. *)
Theorem recording_name_wall_clock t t' :
  valid_datetime t → valid_datetime t' →
  (strftime_Ymd_HMS t ++ py ".wav" = strftime_Ymd_HMS t' ++ py ".wav" ↔
   year t = year t' ∧ month t = month t' ∧ day t = day t' ∧
   hour t = hour t' ∧ minute t = minute t' ∧ second t = second t') ∧
  (strftime_Ymd_HMS t ++ py ".wav" = strftime_Ymd_HMS t' ++ py ".wav" →
   ∀ platform_cast chunks chunks' w,
     chunks' ≠ [] →
     lookup_file
       (fs (world_after
              (capture_session platform_cast t' chunks'
                 (world_after (capture_session platform_cast t chunks w)))))
       (strftime_Ymd_HMS t ++ py ".wav") =
     Some (WaveFile 1 2 SAMPLE_RATE
             (tobytes (List.map (to_int16 platform_cast) (concat chunks'))))).
Proof.
  intros (Hy & Hm & Hd & HH & HM & HS) (Hy' & Hm' & Hd' & HH' & HM' & HS').
  split; [split|].
  - intros Heq. apply app_inv_tail in Heq. unfold strftime_Ymd_HMS in Heq.
    assert (pad4 (year t) = pad4 (year t') ∧ pad2 (month t) = pad2 (month t') ∧
            pad2 (day t) = pad2 (day t') ∧ pad2 (hour t) = pad2 (hour t') ∧
            pad2 (minute t) = pad2 (minute t') ∧ pad2 (second t) = pad2 (second t'))
      as (Ey & Emo & Ed & Eh & Emi & Es).
    { unfold pad4, pad2 in *. cbn [app] in Heq.
      change (py "_") with [95%N] in Heq. cbn [app] in Heq.
      injection Heq as -> -> -> -> -> -> -> -> -> -> -> -> -> ->. done. }
    split_and!; [apply pad4_inj|apply pad2_inj..]; (done || lia).
  - intros (Ey & Emo & Ed & Eh & Emi & Es). unfold strftime_Ymd_HMS.
    by rewrite Ey, Emo, Ed, Eh, Emi, Es.
  - intros Heq platform_cast chunks chunks' w Hne. rewrite Heq.
    by apply capture_session_nonempty.
Qed.

Lemma recording_name_wall_clock_witness :
  strftime_Ymd_HMS before_fallback ++ py ".wav" =
    strftime_Ymd_HMS after_fallback ++ py ".wav" ∧
  fold before_fallback = false ∧ fold after_fallback = true ∧
  lookup_file
    (fs (world_after
           (capture_session cast_zero after_fallback [[f32_half]]
              (world_after
                 (capture_session cast_zero before_fallback [[f32_quarter]]
                    (mkWorld (App_init speakers_device 0 None) None))))))
    (strftime_Ymd_HMS before_fallback ++ py ".wav") =
    Some (WaveFile 1 2 SAMPLE_RATE
            (tobytes (List.map (to_int16 cast_zero) (concat [[f32_half]])))).
Proof.
  assert (valid_datetime before_fallback) as Hb.
  { unfold valid_datetime. simpl. lia. }
  assert (valid_datetime after_fallback) as Ha.
  { unfold valid_datetime. simpl. lia. }
  destruct (recording_name_wall_clock before_fallback after_fallback Hb Ha)
    as [[_ Hname] Hover].
  assert (strftime_Ymd_HMS before_fallback ++ py ".wav" =
          strftime_Ymd_HMS after_fallback ++ py ".wav") as Heq.
  { apply Hname. by split_and!. }
  split_and!; [exact Heq|reflexivity|reflexivity|].
  apply (Hover Heq). discriminate.
Defined.

(** X23: the transcript saved with a recording is the one shown for it:
    after a non-empty recording stopped with a reference text that is not
    empty once stripped and holds no carriage return, [_on_sample_changed]
    for the new recording returns and puts exactly the stripped text in the
    line edit. *)
Theorem recorded_transcript_is_shown platform_cast now chunks w :
  chunks ≠ [] →
  strip (ref_text_edit (app w)) ≠ [] →
  13%N ∉ strip (ref_text_edit (app w)) →
  how_ended (_on_sample_changed (strftime_Ymd_HMS now ++ py ".wav")
               (world_after (capture_session platform_cast now chunks w))) = Ret tt ∧
  ref_text_edit (app (world_after
    (_on_sample_changed (strftime_Ymd_HMS now ++ py ".wav")
       (world_after (capture_session platform_cast now chunks w))))) =
    strip (ref_text_edit (app w)).
Proof.
  intros Hne Htext Hcr.
  pose proof (stop_recording_transcript platform_cast now chunks w Hne) as Hfile.
  destruct (strip (ref_text_edit (app w))) as [|c text] eqn:Hstrip; [done|].
  destruct Hfile as [Hfile _].
  set (w1 := world_after (capture_session platform_cast now chunks w)) in *.
  destruct w1 as [a1 d1]. cbn [fs] in Hfile.
  unfold _on_sample_changed.
  rewrite (with_suffix_wav (strftime_Ymd_HMS now) (strftime_nonempty now)).
  unfold_m. cbn -[py strip strftime_Ymd_HMS universal_newlines path_exists lookup_file].
  assert (path_exists d1 (strftime_Ymd_HMS now ++ py ".txt") = true) as ->.
  { unfold path_exists. destruct d1 as [d1|]; [|done]. cbn [lookup_file] in Hfile.
    rewrite bool_decide_eq_false_2 by done. apply bool_decide_eq_true. eauto. }
  rewrite Hfile. cbn -[py strip strftime_Ymd_HMS universal_newlines].
  rewrite universal_newlines_id by done.
  rewrite <- Hstrip, strip_idemp. done.
Qed.

Lemma recorded_transcript_is_shown_witness :
  ref_text_edit (app (world_after
    (_on_sample_changed (strftime_Ymd_HMS noon ++ py ".wav")
       (world_after (capture_session cast_zero noon [[f32_quarter]]
                       (world_voice (py " hello ")))))))
  = strip (ref_text_edit (app (world_voice (py " hello ")))).
Proof.
  refine (proj2 (recorded_transcript_is_shown cast_zero noon [[f32_quarter]]
                   (world_voice (py " hello ")) _ _ _)).
  - discriminate.
  - vm_compute. discriminate.
  - apply (bool_decide_unpack _). vm_compute. exact I.
Defined.
